(** * Gilts in Issue: spreadsheet-to-CSV conversion

    A shallow embedding of [format_gilts_csv] as found in
    [src/format_gilts_csv.py] and in [src/download_and_format_gilts.py],
    together with the fragments of Python's [str], [os], [csv], [datetime]
    and of [xlrd] that the function observes.

    Strings are Rocq strings; a character is read as the code point of the
    same number (U+0000 to U+00FF). *)

From Stdlib Require Import String Ascii List Bool Arith Lia Sorted.
From stdpp Require Import base option list gmap strings.

Import ListNotations.
Local Open Scope string_scope.
Local Open Scope list_scope.
Local Open Scope nat_scope.

(** ** Python strings *)

Module Py.

(** [str.isspace] on the code points below 256. *)
Definition isspace (c : ascii) : bool :=
  let n := nat_of_ascii c in
  ((9 <=? n) && (n <=? 13)) || ((28 <=? n) && (n <=? 32))
  || (n =? 133) || (n =? 160).

Fixpoint lstrip (s : string) : string :=
  match s with
  | EmptyString => EmptyString
  | String c s' => if isspace c then lstrip s' else s
  end.

Fixpoint rstrip (s : string) : string :=
  match s with
  | EmptyString => EmptyString
  | String c s' =>
      match rstrip s' with
      | EmptyString => if isspace c then EmptyString else String c EmptyString
      | r => String c r
      end
  end.

(** [s.strip()] *)
Definition strip (s : string) : string := rstrip (lstrip s).

(** [bool(s)] for a string. *)
Definition nonempty (s : string) : bool :=
  match s with EmptyString => false | _ => true end.

(** [sub in s] for strings. *)
Fixpoint contains (sub s : string) : bool :=
  String.prefix sub s
  || match s with
     | EmptyString => false
     | String _ s' => contains sub s'
     end.

(** [x in xs] for a list of strings. *)
Definition mem (x : string) (xs : list string) : bool :=
  existsb (String.eqb x) xs.

(** [any(xs)] for a list of strings. *)
Definition any (xs : list string) : bool := existsb nonempty xs.

(** [s.split(sep)] for a one-character separator: never the empty list. *)
Fixpoint split (sep : ascii) (s : string) : list string :=
  match s with
  | EmptyString => [EmptyString]
  | String c s' =>
      if Ascii.eqb c sep then EmptyString :: split sep s'
      else match split sep s' with
           | [] => [String c EmptyString]
           | w :: ws => String c w :: ws
           end
  end.

(** [s.startswith(p)] and [s.endswith(p)] for one character. *)
Definition starts_with (c : ascii) (s : string) : bool :=
  match s with String a _ => Ascii.eqb a c | EmptyString => false end.

Fixpoint ends_with (c : ascii) (s : string) : bool :=
  match s with
  | EmptyString => false
  | String a EmptyString => Ascii.eqb a c
  | String _ s' => ends_with c s'
  end.

End Py.

(** ** Exceptions and the two monads *)

Inductive exn :=
| IndexError
| ValueError
| NameError
| FileNotFoundError
| FileExistsError
| IsADirectoryError
| XLRDError.

(** The result of an expression that may raise. *)
Inductive outcome (A : Type) :=
| Ok (a : A)
| Raise (e : exn).
Arguments Ok {A} a.
Arguments Raise {A} e.

Definition obind {A B} (m : outcome A) (k : A -> outcome B) : outcome B :=
  match m with
  | Ok a => k a
  | Raise e => Raise e
  end.

Notation "'let?' x ':=' m 'in' k" := (obind m (fun x => k))
  (at level 10, x name, m at level 100, k at level 200, only parsing).

(** [xs[i]] on a Python list. *)
Definition index {A} (xs : list A) (i : nat) : outcome A :=
  match nth_error xs i with
  | Some x => Ok x
  | None => Raise IndexError
  end.

(** A list comprehension whose element expression may raise. *)
Fixpoint comprehension {A B} (f : A -> outcome B) (xs : list A)
  : outcome (list B) :=
  match xs with
  | [] => Ok []
  | x :: xs' =>
      let? y := f x in
      let? ys := comprehension f xs' in
      Ok (y :: ys)
  end.

(** [range(a, b)] *)
Definition range (a b : nat) : list nat := seq a (b - a).

(** ** The spreadsheet as xlrd presents it *)

(** What [sheet.cell_value] returns: a [str] for text, empty and blank
    cells, otherwise a number ([float] for numbers and dates, [int] for
    booleans and error codes).  The program observes a number only through
    [str(v)] and [bool(v)], which is what a [Scalar] carries. *)
Inductive cell :=
| Text (s : string)
| Scalar (shown : string) (nonzero : bool).

(** [str(v)] *)
Definition str (v : cell) : string :=
  match v with
  | Text s => s
  | Scalar shown _ => shown
  end.

(** [bool(v)] *)
Definition truthy (v : cell) : bool :=
  match v with
  | Text s => Py.nonempty s
  | Scalar _ nonzero => nonzero
  end.

Record sheet := Sheet {
  ncols : nat;
  cells : list (list cell)
}.

Definition nrows (sh : sheet) : nat := length (cells sh).

(** [sheet.cell_value(rowx, colx)] is [self._cell_values[rowx][colx]]. *)
Definition cell_value (sh : sheet) (rowx colx : nat) : outcome cell :=
  let? r := index (cells sh) rowx in
  index r colx.

(** xlrd pads every row of a sheet to [ncols] cells. *)
Definition padded (sh : sheet) : Prop :=
  Forall (fun r => length r = ncols sh) (cells sh).

Record workbook := Workbook {
  sheets : list sheet
}.

Definition nsheets (wb : workbook) : nat := length (sheets wb).

Definition sheet_by_index (wb : workbook) (i : nat) : outcome sheet :=
  index (sheets wb) i.

(** [[str(sheet.cell_value(i, j)).strip() for j in range(sheet.ncols)]] *)
Definition row_values (sh : sheet) (i : nat) : outcome (list string) :=
  comprehension
    (fun j => let? v := cell_value sh i j in Ok (Py.strip (str v)))
    (range 0 (ncols sh)).

Definition group_labels : list string :=
  ["Ultra-Short"; "Short"; "Medium"; "Long"].

(** ** Dates: the fragment of [datetime] behind the output file name *)

Record date := Date {
  year : nat;
  month : nat;
  day : nat
}.

Definition is_digit (c : ascii) : bool :=
  let n := nat_of_ascii c in (48 <=? n) && (n <=? 57).

Definition digit_value (c : ascii) : nat := nat_of_ascii c - 48.

Definition digit_char (n : nat) : ascii := ascii_of_nat (48 + n mod 10).

Definition is_leap (y : nat) : bool :=
  (y mod 4 =? 0) && (negb (y mod 100 =? 0) || (y mod 400 =? 0)).

Definition days_in_month (y m : nat) : nat :=
  match m with
  | 2 => if is_leap y then 29 else 28
  | 4 | 6 | 9 | 11 => 30
  | _ => 31
  end.

(** The directive [%d]: [3[0-1]|[1-2]\d|0[1-9]|[1-9]| [1-9]]. *)
Definition directive_d (s : string) : option nat :=
  match s with
  | String a EmptyString =>
      if is_digit a && negb (digit_value a =? 0) then Some (digit_value a)
      else None
  | String a (String b EmptyString) =>
      if Ascii.eqb a " "%char then
        if is_digit b && negb (digit_value b =? 0) then Some (digit_value b)
        else None
      else if is_digit a && is_digit b then
        let v := 10 * digit_value a + digit_value b in
        if (1 <=? v) && (v <=? 31) then Some v else None
      else None
  | _ => None
  end.

(** The directive [%m]: [1[0-2]|0[1-9]|[1-9]]. *)
Definition directive_m (s : string) : option nat :=
  match s with
  | String a EmptyString =>
      if is_digit a && negb (digit_value a =? 0) then Some (digit_value a)
      else None
  | String a (String b EmptyString) =>
      if is_digit a && is_digit b then
        let v := 10 * digit_value a + digit_value b in
        if (1 <=? v) && (v <=? 12) then Some v else None
      else None
  | _ => None
  end.

(** The directive [%Y]: four digits. *)
Definition directive_Y (s : string) : option nat :=
  match s with
  | String a (String b (String c (String d EmptyString))) =>
      if is_digit a && is_digit b && is_digit c && is_digit d then
        Some (1000 * digit_value a + 100 * digit_value b
              + 10 * digit_value c + digit_value d)
      else None
  | _ => None
  end.

(** [datetime.strptime(s, '%d-%m-%Y')]: the whole of [s] has to match, and
    the three numbers have to make a date of the calendar from year 1 on. *)
Definition strptime (s : string) : outcome date :=
  match Py.split "-"%char s with
  | [d; m; y] =>
      match directive_d d, directive_m m, directive_Y y with
      | Some d, Some m, Some y =>
          if (1 <=? y) && (d <=? days_in_month y m) then Ok (Date y m d)
          else Raise ValueError
      | _, _, _ => Raise ValueError
      end
  | _ => Raise ValueError
  end.

(** [d.strftime('%Y%m%d')], the year on four digits. *)
Definition strftime (d : date) : string :=
  String (digit_char (year d / 1000))
    (String (digit_char (year d / 100))
      (String (digit_char (year d / 10))
        (String (digit_char (year d))
          (String (digit_char (month d / 10))
            (String (digit_char (month d))
              (String (digit_char (day d / 10))
                (String (digit_char (day d)) EmptyString))))))).

(** ** Paths: the fragment of [os.path] on POSIX *)

Definition slash : ascii := "/"%char.

(** [os.path.join(a, b)] *)
Definition join (a b : string) : string :=
  if Py.starts_with slash b then b
  else if negb (Py.nonempty a) || Py.ends_with slash a then a +:+ b
  else a +:+ String slash b.

(** [os.path.basename(p)]: what follows the last slash. *)
Definition basename (p : string) : string :=
  List.last (Py.split slash p) EmptyString.

(** ** CSV: the fragment of [csv.writer] with the excel dialect *)

Inductive quoting := QUOTE_MINIMAL | QUOTE_ALL.

Definition quotechar : ascii := ascii_of_nat 34.
Definition delimiter : ascii := ","%char.
Definition CR : ascii := ascii_of_nat 13.
Definition LF : ascii := ascii_of_nat 10.
Definition lineterminator : string := String CR (String LF EmptyString).

Definition special (c : ascii) : bool :=
  Ascii.eqb c delimiter || Ascii.eqb c quotechar
  || Ascii.eqb c CR || Ascii.eqb c LF.

Fixpoint has_special (s : string) : bool :=
  match s with
  | EmptyString => false
  | String c s' => special c || has_special s'
  end.

(** The quote character is doubled inside a field. *)
Fixpoint doublequote (s : string) : string :=
  match s with
  | EmptyString => EmptyString
  | String c s' =>
      if Ascii.eqb c quotechar then String c (String c (doublequote s'))
      else String c (doublequote s')
  end.

Definition quoted (s : string) : string :=
  String quotechar (doublequote s +:+ String quotechar EmptyString).

Definition csv_field (q : quoting) (s : string) : string :=
  match q with
  | QUOTE_ALL => quoted s
  | QUOTE_MINIMAL => if has_special s then quoted s else doublequote s
  end.

Fixpoint join_fields (fs : list string) : string :=
  match fs with
  | [] => EmptyString
  | [f] => f
  | f :: fs' => f +:+ String delimiter (join_fields fs')
  end.

(** What [writer.writerow(row)] sends to the file: a record of one empty
    field is written as a pair of quotes, so that the line is not empty. *)
Definition csv_record (q : quoting) (row : list string) : string :=
  let body := join_fields (map (csv_field q) row) in
  match row, body with
  | _ :: _, EmptyString => quoted EmptyString +:+ lineterminator
  | _, _ => body +:+ lineterminator
  end.

(** The text of a whole file written row by row. *)
Fixpoint csv_text (q : quoting) (rows : list (list string)) : string :=
  match rows with
  | [] => EmptyString
  | r :: rows' => csv_record q r +:+ csv_text q rows'
  end.

(** ** The world the function runs in *)

(** What a file holds: a workbook that xlrd can open, or other bytes, which
    xlrd rejects.  The CSV text written here is of the second kind. *)
Inductive content :=
| Xls (wb : workbook)
| Raw (bytes : string).

Inductive node :=
| Dir
| File (c : content).

(** What the function prints, in order ([traceback.print_exc] included). *)
Inductive message :=
| NoExcelFiles
| FileNotFoundAt (p : string)
| ConvertingFile (p : string)
| ExcelHasSheets (n : nat)
| SheetDimensions (r c : nat)
| FoundHeaderRow (i : nat)
| CouldNotFindHeader
| FoundSectionHeaders (rows : list nat)
| SuccessfullyConverted (p : string)
| ErrorConverting (e : exn)
| Traceback (e : exn).

(** The file system is a flat map from paths to nodes: the parents of a
    path are not looked at, and permissions and disk space are no cause of
    failure. *)
Record world := World {
  today : date;                 (* datetime.now() *)
  here : string;                (* os.path.dirname(os.path.abspath(__file__)) *)
  getmtime : string -> nat;     (* os.path.getmtime *)
  fs : gmap string node;
  console : list message
}.

Definition set_fs (f : gmap string node) (w : world) : world :=
  World (today w) (here w) (getmtime w) f (console w).

Definition set_console (c : list message) (w : world) : world :=
  World (today w) (here w) (getmtime w) (fs w) c.

(** A function that reads and changes the world and may raise. *)
Definition M (A : Type) : Type := world -> outcome A * world.

Definition ret {A} (a : A) : M A := fun w => (Ok a, w).

Definition raise {A} (e : exn) : M A := fun w => (Raise e, w).

Definition bind {A B} (m : M A) (k : A -> M B) : M B :=
  fun w =>
    match m w with
    | (Ok a, w') => k a w'
    | (Raise e, w') => (Raise e, w')
    end.

Notation "'let*' x ':=' m 'in' k" := (bind m (fun x => k))
  (at level 10, x name, m at level 100, k at level 200, only parsing).
Notation "m ';;' k" := (bind m (fun _ => k))
  (at level 100, k at level 200, right associativity, only parsing).

(** An expression that only reads its arguments. *)
Definition lift {A} (o : outcome A) : M A := fun w => (o, w).

(** [try: m  except ... as e: h e] *)
Definition try_except {A} (m : M A) (h : exn -> M A) : M A :=
  fun w =>
    match m w with
    | (Ok a, w') => (Ok a, w')
    | (Raise e, w') => h e w'
    end.

Definition print (m : message) : M unit :=
  fun w => (Ok tt, set_console (console w ++ [m]) w).

Definition now : M date := fun w => (Ok (today w), w).

Definition script_dir : M string := fun w => (Ok (here w), w).

(** [os.path.exists(p)] *)
Definition exists_ (p : string) : M bool :=
  fun w => (Ok (bool_decide (is_Some (fs w !! p))), w).

(** [os.makedirs(p, exist_ok=True)] *)
Definition makedirs (p : string) : M unit :=
  fun w =>
    match fs w !! p with
    | Some Dir => (Ok tt, w)
    | Some (File _) => (Raise FileExistsError, w)
    | None =>
        if Py.nonempty p then (Ok tt, set_fs (<[p := Dir]> (fs w)) w)
        else (Raise FileNotFoundError, w)
    end.

(** [xlrd.open_workbook(p)] *)
Definition open_workbook (p : string) : M workbook :=
  fun w =>
    match fs w !! p with
    | Some (File (Xls wb)) => (Ok wb, w)
    | Some (File (Raw _)) => (Raise XLRDError, w)
    | Some Dir => (Raise IsADirectoryError, w)
    | None => (Raise FileNotFoundError, w)
    end.

(** [open(p, 'w', newline='')]: the file is created, or emptied if it was
    there.  The file object is known by its path. *)
Definition open_w (p : string) : M string :=
  fun w =>
    match fs w !! p with
    | Some Dir => (Raise IsADirectoryError, w)
    | _ => (Ok p, set_fs (<[p := File (Raw EmptyString)]> (fs w)) w)
    end.

(** Writing to an open file.  The buffer of the file object is not
    modelled: the [with] statement closes the file on every way out, so
    that all that was written is in the file when the function returns. *)
Definition write (csvfile : string) (s : string) : M unit :=
  fun w =>
    match fs w !! csvfile with
    | Some (File (Raw old)) =>
        (Ok tt, set_fs (<[csvfile := File (Raw (old +:+ s))]> (fs w)) w)
    | _ => (Raise ValueError, w)
    end.

(** [csv.writer(csvfile, quoting=q).writerow(row)] *)
Definition writerow (q : quoting) (csvfile : string) (row : list string)
  : M unit :=
  write csvfile (csv_record q row).

(** [glob.glob(os.path.join(dir, 'gilts_in_issue_*.xls*'))]: the entries
    of [dir] named by the pattern, in the order of the directory listing
    (here the order of the map).  [dir] holds no pattern character. *)
Definition matches_pattern (dir p : string) : bool :=
  let stem := join dir "gilts_in_issue_" in
  String.prefix stem p
  && (let rest := String.substring (String.length stem)
                    (String.length p - String.length stem) p in
      negb (Py.contains "/" rest) && Py.contains ".xls" rest).

Definition glob_gilts (dir : string) : M (list string) :=
  fun w =>
    (Ok (List.filter (matches_pattern dir) (map fst (map_to_list (fs w)))), w).

(** [max(xs, key=k)] on a list that is not empty: the first of the
    greatest. *)
Fixpoint max_by (k : string -> nat) (best : string) (xs : list string)
  : string :=
  match xs with
  | [] => best
  | x :: xs' => max_by k (if k best <? k x then x else best) xs'
  end.

(** A [csv.writer] object: the file it writes to and its quoting. *)
Record writer := Writer {
  csvfile : string;
  quoting_of : quoting
}.

Definition writer_writerow (wr : writer) (row : list string) : M unit :=
  writerow (quoting_of wr) (csvfile wr) row.

(** ** [src/format_gilts_csv.py] *)

Module FormatGiltsCsv.

(** Lines 81 to 88: the loop over [range(min(15, sheet.nrows))], left by
    [break] at the first row that has both header names. *)
Fixpoint find_header_row (sh : sheet) (idxs : list nat) : M (option nat) :=
  match idxs with
  | [] => ret None
  | i :: rest =>
      let* rv := lift (row_values sh i) in
      if Py.mem "ISIN Code" rv && Py.mem "Redemption Date" rv
      then print (FoundHeaderRow i);; ret (Some i)
      else find_header_row sh rest
  end.

(** Lines 106 and 107: the test for a section header. *)
Definition looks_like_section_header (sh : sheet) (header_row_idx i : nat)
    (cell_value0 : string) : outcome bool :=
  let? no_isin :=
    if Py.nonempty cell_value0 then
      let? second := cell_value sh i 1 in
      Ok (negb (truthy second) && (header_row_idx + 1 <? i))
    else Ok false in
  Ok (no_isin
      || (Py.contains "Index-linked" cell_value0 && (header_row_idx + 1 <? i))).

(** Lines 95 to 109: the rows recorded as section headers. *)
Fixpoint identify_section_headers (sh : sheet) (header_row_idx : nat)
    (idxs : list nat) (section_headers : list nat) : outcome (list nat) :=
  match idxs with
  | [] => Ok section_headers
  | i :: rest =>
      let? first := cell_value sh i 0 in
      let cell_value0 := Py.strip (str first) in
      if Py.mem cell_value0 group_labels
      then identify_section_headers sh header_row_idx rest section_headers
      else
        let? found := looks_like_section_header sh header_row_idx i cell_value0 in
        if found
        then identify_section_headers sh header_row_idx rest (section_headers ++ [i])
        else identify_section_headers sh header_row_idx rest section_headers
  end.

(** Lines 128 to 140: the data rows. *)
Fixpoint write_data_rows (wr : writer) (sh : sheet) (idxs : list nat) : M unit :=
  match idxs with
  | [] => ret tt
  | i :: rest =>
      let* rv := lift (row_values sh i) in
      if negb (Py.any rv) then write_data_rows wr sh rest
      else
        let* first := lift (index rv 0) in
        if Py.mem first group_labels then write_data_rows wr sh rest
        else writer_writerow wr rv;; write_data_rows wr sh rest
  end.

(** Lines 114 to 140: the [with] block. *)
Definition write_csv (csv_path : string) (sh : sheet) (header_row_idx : nat)
  : M unit :=
  let* csvfile := open_w csv_path in
  let wr := Writer csvfile QUOTE_MINIMAL in
  let* title := lift (row_values sh 0) in
  writer_writerow wr title;;
  let* total := lift (row_values sh 5) in
  writer_writerow wr total;;
  let* headers := lift (row_values sh header_row_idx) in
  writer_writerow wr headers;;
  write_data_rows wr sh (range (header_row_idx + 1) (nrows sh)).

(** Lines 59 to 67: the date of the file name, or else of today. *)
Definition formatted_date (excel_file : string) : M string :=
  try_except
    (let filename := basename excel_file in
     let date_str :=
       hd EmptyString
         (Py.split "."%char
            (List.last (Py.split "_"%char filename) EmptyString)) in
     let* date_obj := lift (strptime date_str) in
     ret (strftime date_obj))
    (fun e =>
       match e with
       | ValueError | IndexError =>
           let* d := now in ret (strftime d)
       | _ => raise e
       end).

(** Lines 57 to 149: the [try] statement. *)
Definition convert (excel_file output_dir : string) : M (option string) :=
  try_except
    (let* date := formatted_date excel_file in
     let csv_filename := "gilts_in_issue_" +:+ date +:+ ".csv" in
     let csv_path := join output_dir csv_filename in
     let* wb := open_workbook excel_file in
     let* sh := lift (sheet_by_index wb 0) in
     print (ExcelHasSheets (nsheets wb));;
     print (SheetDimensions (nrows sh) (ncols sh));;
     let* header_row_idx :=
       find_header_row sh (range 0 (Nat.min 15 (nrows sh))) in
     match header_row_idx with
     | None => print CouldNotFindHeader;; ret None
     | Some header_row_idx =>
         let* section_headers :=
           lift (identify_section_headers sh header_row_idx
                   (range (header_row_idx + 1) (nrows sh)) []) in
         print (FoundSectionHeaders (map S section_headers));;
         write_csv csv_path sh header_row_idx;;
         print (SuccessfullyConverted csv_path);;
         ret (Some csv_path)
     end)
    (fun e =>
       print (ErrorConverting e);;
       print (Traceback e);;
       ret None).

(** Lines 50 to 55, then the [try] statement. *)
Definition convert_existing (excel_file output_dir : string)
  : M (option string) :=
  let* found := exists_ excel_file in
  if negb found then print (FileNotFoundAt excel_file);; ret None
  else print (ConvertingFile excel_file);; convert excel_file output_dir.

(** [format_gilts_csv(excel_file=None, output_dir=None)] *)
Definition format_gilts_csv (excel_file output_dir : option string)
  : M (option string) :=
  let* output_dir :=
    match output_dir with
    | None => let* d := script_dir in ret (join d "csv_exports")
    | Some d => ret d
    end in
  makedirs output_dir;;
  match excel_file with
  | None =>
      let* d := script_dir in
      let downloads_dir := join d "downloads" in
      let* excel_files := glob_gilts downloads_dir in
      match excel_files with
      | [] => print NoExcelFiles;; ret None
      | f :: others =>
          fun w => convert_existing (max_by (getmtime w) f others) output_dir w
      end
  | Some excel_file => convert_existing excel_file output_dir
  end.

End FormatGiltsCsv.

(** ** [src/download_and_format_gilts.py] *)

Module DownloadAndFormatGilts.

(** Lines 297 to 304. *)
Fixpoint find_header_row (sh : sheet) (idxs : list nat) : M (option nat) :=
  match idxs with
  | [] => ret None
  | i :: rest =>
      let* rv := lift (row_values sh i) in
      if Py.mem "ISIN Code" rv && Py.mem "Redemption Date" rv
      then print (FoundHeaderRow i);; ret (Some i)
      else find_header_row sh rest
  end.

(** Lines 322 and 323. *)
Definition looks_like_section_header (sh : sheet) (header_row_idx i : nat)
    (cell_value0 : string) : outcome bool :=
  let? no_isin :=
    if Py.nonempty cell_value0 then
      let? second := cell_value sh i 1 in
      Ok (negb (truthy second) && (header_row_idx + 1 <? i))
    else Ok false in
  Ok (no_isin
      || (Py.contains "Index-linked" cell_value0 && (header_row_idx + 1 <? i))).

(** Lines 311 to 325. *)
Fixpoint identify_section_headers (sh : sheet) (header_row_idx : nat)
    (idxs : list nat) (section_headers : list nat) : outcome (list nat) :=
  match idxs with
  | [] => Ok section_headers
  | i :: rest =>
      let? first := cell_value sh i 0 in
      let cell_value0 := Py.strip (str first) in
      if Py.mem cell_value0 group_labels
      then identify_section_headers sh header_row_idx rest section_headers
      else
        let? found := looks_like_section_header sh header_row_idx i cell_value0 in
        if found
        then identify_section_headers sh header_row_idx rest (section_headers ++ [i])
        else identify_section_headers sh header_row_idx rest section_headers
  end.

(** Lines 345 to 357. *)
Fixpoint write_data_rows (wr : writer) (sh : sheet) (idxs : list nat)
  : M unit :=
  match idxs with
  | [] => ret tt
  | i :: rest =>
      let* rv := lift (row_values sh i) in
      if negb (Py.any rv) then write_data_rows wr sh rest
      else
        let* first := lift (index rv 0) in
        if Py.mem first group_labels then write_data_rows wr sh rest
        else writer_writerow wr rv;; write_data_rows wr sh rest
  end.

(** Lines 330 to 357: the [with] block; every field is quoted. *)
Definition write_csv (csv_path : string) (sh : sheet) (header_row_idx : nat)
  : M unit :=
  let* csvfile := open_w csv_path in
  let wr := Writer csvfile QUOTE_ALL in
  let* title := lift (row_values sh 0) in
  writer_writerow wr title;;
  let* total := lift (row_values sh 5) in
  writer_writerow wr total;;
  let* headers := lift (row_values sh header_row_idx) in
  writer_writerow wr headers;;
  write_data_rows wr sh (range (header_row_idx + 1) (nrows sh)).

(** Lines 275 to 283. *)
Definition formatted_date (excel_file : string) : M string :=
  try_except
    (let filename := basename excel_file in
     let date_str :=
       hd EmptyString
         (Py.split "."%char
            (List.last (Py.split "_"%char filename) EmptyString)) in
     let* date_obj := lift (strptime date_str) in
     ret (strftime date_obj))
    (fun e =>
       match e with
       | ValueError | IndexError =>
           let* d := now in ret (strftime d)
       | _ => raise e
       end).

(** Lines 273 to 365: the [try] statement.  The section headers are
    printed as they are, not one up. *)
Definition convert (excel_file output_dir : string) : M (option string) :=
  try_except
    (let* date := formatted_date excel_file in
     let csv_filename := "gilts_in_issue_" +:+ date +:+ ".csv" in
     let csv_path := join output_dir csv_filename in
     let* wb := open_workbook excel_file in
     let* sh := lift (sheet_by_index wb 0) in
     print (ExcelHasSheets (nsheets wb));;
     print (SheetDimensions (nrows sh) (ncols sh));;
     let* header_row_idx :=
       find_header_row sh (range 0 (Nat.min 15 (nrows sh))) in
     match header_row_idx with
     | None => print CouldNotFindHeader;; ret None
     | Some header_row_idx =>
         let* section_headers :=
           lift (identify_section_headers sh header_row_idx
                   (range (header_row_idx + 1) (nrows sh)) []) in
         print (FoundSectionHeaders section_headers);;
         write_csv csv_path sh header_row_idx;;
         print (SuccessfullyConverted csv_path);;
         ret (Some csv_path)
     end)
    (fun e =>
       print (ErrorConverting e);;
       print (Traceback e);;
       ret None).

(** Lines 266 to 271, then the [try] statement. *)
Definition convert_existing (excel_file output_dir : string)
  : M (option string) :=
  let* found := exists_ excel_file in
  if negb found then print (FileNotFoundAt excel_file);; ret None
  else print (ConvertingFile excel_file);; convert excel_file output_dir.

(** [format_gilts_csv(excel_file=None, output_dir=None)].  The module
    binds the name [glob] only under [if __name__ == "__main__"] (line
    411): [glob_bound] tells whether the file runs as the main script. *)
Definition format_gilts_csv (glob_bound : bool)
    (excel_file output_dir : option string) : M (option string) :=
  let* output_dir :=
    match output_dir with
    | None => let* d := script_dir in ret (join d "csv_exports")
    | Some d => ret d
    end in
  makedirs output_dir;;
  match excel_file with
  | None =>
      let* d := script_dir in
      let downloads_dir := join d "downloads" in
      let* excel_files :=
        if glob_bound then glob_gilts downloads_dir else raise NameError in
      match excel_files with
      | [] => print NoExcelFiles;; ret None
      | f :: others =>
          fun w => convert_existing (max_by (getmtime w) f others) output_dir w
      end
  | Some excel_file => convert_existing excel_file output_dir
  end.

End DownloadAndFormatGilts.

(** ** What the rows of a sheet look like once trimmed *)

(** The row with index [i], an empty row if there is none. *)
Definition row_at (sh : sheet) (i : nat) : list cell :=
  nth i (cells sh) [].

(** The first [ncols] cells of row [i], each as [str(v).strip()]. *)
Definition trimmed (sh : sheet) (i : nat) : list string :=
  map (fun v => Py.strip (str v)) (firstn (ncols sh) (row_at sh i)).

(** Both header names are among the values of a row. *)
Definition has_header_names (rv : list string) : Prop :=
  In "ISIN Code" rv /\ In "Redemption Date" rv.

(** The first value of a row is a group label. *)
Definition is_group_label (rv : list string) : Prop :=
  exists first, nth_error rv 0 = Some first /\ In first group_labels.

(** Every value of a row is empty. *)
Definition all_blank (rv : list string) : Prop :=
  Forall (fun s => s = EmptyString) rv.

(** ** The loops without the world *)

(** What the header loop computes, the printing left out. *)
Fixpoint header_scan (sh : sheet) (idxs : list nat) : outcome (option nat) :=
  match idxs with
  | [] => Ok None
  | i :: rest =>
      let? rv := row_values sh i in
      if Py.mem "ISIN Code" rv && Py.mem "Redemption Date" rv
      then Ok (Some i)
      else header_scan sh rest
  end.

(** The rows that the data loop hands to the writer, and how it ends. *)
Fixpoint data_rows (sh : sheet) (idxs : list nat)
  : list (list string) * outcome unit :=
  match idxs with
  | [] => ([], Ok tt)
  | i :: rest =>
      match row_values sh i with
      | Raise e => ([], Raise e)
      | Ok rv =>
          if negb (Py.any rv) then data_rows sh rest
          else
            match index rv 0 with
            | Raise e => ([], Raise e)
            | Ok first =>
                if Py.mem first group_labels then data_rows sh rest
                else (rv :: fst (data_rows sh rest), snd (data_rows sh rest))
            end
      end
  end.

(** The rows that the [with] block hands to the writer, and how it ends. *)
Definition written_rows (sh : sheet) (header_row_idx : nat)
  : list (list string) * outcome unit :=
  match row_values sh 0 with
  | Raise e => ([], Raise e)
  | Ok title =>
      match row_values sh 5 with
      | Raise e => ([title], Raise e)
      | Ok total =>
          match row_values sh header_row_idx with
          | Raise e => ([title; total], Raise e)
          | Ok headers =>
              let d := data_rows sh (range (header_row_idx + 1) (nrows sh)) in
              (title :: total :: headers :: fst d, snd d)
          end
      end
  end.

(** The indices of the rows that the data loop keeps. *)
Definition kept (sh : sheet) (i : nat) : bool :=
  Py.any (trimmed sh i)
  && negb (match trimmed sh i with
           | first :: _ => Py.mem first group_labels
           | [] => false
           end).

(** The first cell of row [i], trimmed, and its second cell as it is. *)
Definition label (sh : sheet) (i : nat) : string :=
  Py.strip (str (nth 0 (row_at sh i) (Text EmptyString))).

Definition second_cell (sh : sheet) (i : nat) : cell :=
  nth 1 (row_at sh i) (Text EmptyString).

(** The test of lines 100 to 107 on a row that can be read. *)
Definition section_header (sh : sheet) (header_row_idx i : nat) : bool :=
  negb (Py.mem (label sh i) group_labels)
  && ((Py.nonempty (label sh i)
       && negb (truthy (second_cell sh i))
       && (header_row_idx + 1 <? i))
      || (Py.contains "Index-linked" (label sh i)
          && (header_row_idx + 1 <? i))).

(** The indices of the rows handed to the writer, in the order of the
    lines of the file. *)
Definition written_indices (sh : sheet) (header_row_idx : nat) : list nat :=
  0 :: 5 :: header_row_idx
    :: List.filter (kept sh) (range (header_row_idx + 1) (nrows sh)).

(** The indices collected in [section_headers]. *)
Definition recorded (sh : sheet) (header_row_idx : nat) : list nat :=
  List.filter (section_header sh header_row_idx)
    (range (header_row_idx + 1) (nrows sh)).

(** [h] is the first of the first 15 rows that has both header names. *)
Definition header_at (sh : sheet) (h : nat) : Prop :=
  h < Nat.min 15 (nrows sh)
  /\ has_header_names (trimmed sh h)
  /\ forall k, k < h -> ~ has_header_names (trimmed sh k).

(** The first sheet of the workbook in the file at [p]. *)
Definition first_sheet (w : world) (p : string) (sh : sheet) : Prop :=
  exists others, fs w !! p = Some (File (Xls (Workbook (sh :: others)))).

(** No file was made, removed or changed between [w] and [w']. *)
Definition same_files (w w' : world) : Prop :=
  forall p c, fs w' !! p = Some (File c) <-> fs w !! p = Some (File c).

(** The lines printed by a call that ends in [w']. *)
Definition printed (w w' : world) (ms : list message) : Prop :=
  console w' = console w ++ ms.

(** A failure that shows before the CSV file is opened: the input is
    missing or is no workbook with a sheet, or the first 15 rows have no
    header row, or the path of the CSV file is a directory. *)
Definition fails_early (w : world) (excel_file csv_path : string) : Prop :=
  fs w !! csv_path = Some Dir
  \/ match fs w !! excel_file with
     | Some (File (Xls wb)) =>
         match sheets wb with
         | sh :: _ =>
             padded sh
             /\ forall i, i < 15 -> ~ has_header_names (trimmed sh i)
         | [] => True
         end
     | _ => True
     end.

(** A line of [DownloadAndFormatGilts] for a line of [FormatGiltsCsv]: the
    section headers are printed one lower. *)
Definition unshifted (m : message) : message :=
  match m with
  | FoundSectionHeaders rows => FoundSectionHeaders (map Nat.pred rows)
  | _ => m
  end.

(** ** Views of the conversion, for the proofs *)

(** The world in which the file at [p] holds the text [t]. *)
Definition holding (p t : string) (w : world) : world :=
  set_fs (<[p := File (Raw t)]> (fs w)) w.

(** The part of the file name that is read as a date. *)
Definition date_str (excel_file : string) : string :=
  hd EmptyString
    (Py.split "."%char
       (List.last (Py.split "_"%char (basename excel_file)) EmptyString)).

(** The date in the name of the CSV file. *)
Definition date_of (w : world) (excel_file : string) : string :=
  match strptime (date_str excel_file) with
  | Ok d => strftime d
  | Raise _ => strftime (today w)
  end.

Definition csv_path_of (w : world) (excel_file output_dir : string) : string :=
  join output_dir ("gilts_in_issue_" +:+ date_of w excel_file +:+ ".csv").

(** The world after some more lines on the console. *)
Definition say (ms : list message) (w : world) : world :=
  set_console (console w ++ ms) w.

Definition failed (e : exn) : list message := [ErrorConverting e; Traceback e].

(** What the [try] statement does, by cases on what it finds; [q] is the
    quoting of the writer and [shown] what is printed of the section
    headers. *)
Definition convert_view (q : quoting) (shown : list nat -> list nat)
    (excel_file output_dir : string) (w : world)
  : outcome (option string) * world :=
  match fs w !! excel_file with
  | None => (Ok None, say (failed FileNotFoundError) w)
  | Some Dir => (Ok None, say (failed IsADirectoryError) w)
  | Some (File (Raw _)) => (Ok None, say (failed XLRDError) w)
  | Some (File (Xls wb)) =>
      match sheets wb with
      | [] => (Ok None, say (failed IndexError) w)
      | sh :: _ =>
          let seen :=
            [ExcelHasSheets (nsheets wb);
             SheetDimensions (nrows sh) (ncols sh)] in
          match header_scan sh (range 0 (Nat.min 15 (nrows sh))) with
          | Raise e => (Ok None, say (seen ++ failed e) w)
          | Ok None => (Ok None, say (seen ++ [CouldNotFindHeader]) w)
          | Ok (Some h) =>
              match FormatGiltsCsv.identify_section_headers sh h
                      (range (h + 1) (nrows sh)) [] with
              | Raise e =>
                  (Ok None, say (seen ++ FoundHeaderRow h :: failed e) w)
              | Ok section_headers =>
                  let csv_path := csv_path_of w excel_file output_dir in
                  let seen' :=
                    seen ++ [FoundHeaderRow h;
                             FoundSectionHeaders (shown section_headers)] in
                  match fs w !! csv_path with
                  | Some Dir =>
                      (Ok None, say (seen' ++ failed IsADirectoryError) w)
                  | _ =>
                      let text := csv_text q (fst (written_rows sh h)) in
                      match snd (written_rows sh h) with
                      | Raise e =>
                          (Ok None,
                           say (seen' ++ failed e) (holding csv_path text w))
                      | Ok _ =>
                          (Ok (Some csv_path),
                           say (seen' ++ [SuccessfullyConverted csv_path])
                             (holding csv_path text w))
                      end
                  end
              end
          end
      end
  end.

(** The directory that the CSV file goes to. *)
Definition directory (w : world) (output_dir : option string) : string :=
  match output_dir with
  | None => join (here w) "csv_exports"
  | Some d => d
  end.

(** The spreadsheet that is converted, when there is one. *)
Definition chosen (w : world) (excel_file : option string) : option string :=
  match excel_file with
  | Some f => Some f
  | None =>
      match List.filter (matches_pattern (join (here w) "downloads"))
              (map fst (map_to_list (fs w))) with
      | [] => None
      | f :: others => Some (max_by (getmtime w) f others)
      end
  end.

Definition existing_view (q : quoting) (shown : list nat -> list nat)
    (excel_file output_dir : string) (w : world)
  : outcome (option string) * world :=
  match fs w !! excel_file with
  | None => (Ok None, say [FileNotFoundAt excel_file] w)
  | Some _ =>
      convert_view q shown excel_file output_dir
        (say [ConvertingFile excel_file] w)
  end.

(** What a call does, by cases; [glob_bound] as in
    [DownloadAndFormatGilts.format_gilts_csv]. *)
Definition call_view (q : quoting) (shown : list nat -> list nat)
    (glob_bound : bool) (excel_file output_dir : option string) (w : world)
  : outcome (option string) * world :=
  match makedirs (directory w output_dir) w with
  | (Raise e, w1) => (Raise e, w1)
  | (Ok _, w1) =>
      match excel_file with
      | None =>
          if glob_bound then
            match chosen w1 None with
            | None => (Ok None, say [NoExcelFiles] w1)
            | Some f => existing_view q shown f (directory w output_dir) w1
            end
          else (Raise NameError, w1)
      | Some f => existing_view q shown f (directory w output_dir) w1
      end
  end.

(** ** Sample inputs *)

Definition blank_row : list cell :=
  [Text ""; Text ""; Text ""; Text ""].

(** A sheet laid out like the published one: title in row 0, totals in
    row 5, header names in row 8, then group labels, data rows and the
    heading of a section. *)
Definition gilts_sheet : sheet :=
  Sheet 4
    [[Text "Gilts in Issue"; Text ""; Text ""; Text ""];
     blank_row; blank_row; blank_row; blank_row;
     [Text "Total"; Text ""; Text ""; Scalar "1000.5" true];
     blank_row; blank_row;
     [Text " Gilt Name "; Text "ISIN Code"; Text "Redemption Date";
      Text "Amount"];
     blank_row;
     [Text "Short"; Text ""; Text ""; Text ""];
     [Text "UK Treasury 2030"; Text "GB00ABC123"; Text "2030-01-01";
      Scalar "1.5" true];
     [Text "Index-linked Gilts"; Text ""; Text ""; Text ""];
     [Text "UK IL 2035"; Text "GB00XYZ789"; Text "2035-01-01";
      Scalar "2.0" true]].

Definition gilts_xls : string := "downloads/gilts_in_issue_31-12-2024.xls".

Definition world_with (sh : sheet) : world :=
  World (Date 2026 11 4) "/app" (fun _ => 0)
    {[ gilts_xls := File (Xls (Workbook [sh])) ]} [].

(** The header names only in row 20. *)
Definition late_header_sheet : sheet :=
  Sheet 2
    (repeat [Text "x"; Text "y"] 20
     ++ [[Text "ISIN Code"; Text "Redemption Date"];
         [Text "UK Treasury 2030"; Text "GB00ABC123"]]).

(** The header names in row 0 and fewer than 6 rows. *)
Definition short_sheet : sheet :=
  Sheet 2
    [[Text "ISIN Code"; Text "Redemption Date"];
     [Text "GB00ABC123"; Text "2030-01-01"]].

(** The header names in row 0, a group label in row 5. *)
Definition early_header_sheet : sheet :=
  Sheet 2
    [[Text "ISIN Code"; Text "Redemption Date"];
     [Text "GB00ABC123"; Text "2030-01-01"];
     [Text "GB00ABC456"; Text "2031-01-01"];
     [Text "GB00ABC789"; Text "2032-01-01"];
     [Text "GB00DEF123"; Text "2033-01-01"];
     [Text "Short"; Text "x"];
     [Text "GB00DEF456"; Text "2034-01-01"]].

(** A world in which the output directory cannot be made: a file has its
    name. *)
Definition world_with_file_at (dir : string) : world :=
  World (Date 2026 11 4) "/app" (fun _ => 0)
    {[ gilts_xls := File (Xls (Workbook [gilts_sheet]));
       dir := File (Raw "") ]} [].

(** The path of the CSV file made from [gilts_xls] in the directory
    [out]. *)
Definition gilts_csv : string := "out/gilts_in_issue_20241231.csv".

(** Another day, another place, and the CSV file of [gilts_sheet] is there
    already. *)
Definition later_world : world :=
  World (Date 2027 1 15) "/srv" (fun _ => 7)
    (fs (snd (FormatGiltsCsv.format_gilts_csv (Some gilts_xls) (Some "out")
                (world_with gilts_sheet))))
    [].

(** ** The script, and the name of a download *)

(** The line that the script prints after the call (lines 158 to 161 of
    [src/format_gilts_csv.py]). *)
Inductive script_line :=
| CsvFileCreatedAt (p : string)
| FailedToCreateCsvFile.

(** Lines 151 to 161 of [src/format_gilts_csv.py], run with [sys.argv].
    The lines of the function go to the console; the line that the script
    prints last is its result here. *)
Definition script (argv : list string) : M script_line :=
  let excel_file :=
    if 1 <? length argv then Some (nth 1 argv EmptyString) else None in
  let* csv_path := FormatGiltsCsv.format_gilts_csv excel_file None in
  match csv_path with
  | Some p =>
      if Py.nonempty p then ret (CsvFileCreatedAt p)
      else ret FailedToCreateCsvFile
  | None => ret FailedToCreateCsvFile
  end.

(** [d.strftime('%d/%m/%Y')], for a year of four digits. *)
Definition strftime_dmy (d : date) : string :=
  String (digit_char (day d / 10))
    (String (digit_char (day d))
      (String slash
        (String (digit_char (month d / 10))
          (String (digit_char (month d))
            (String slash
              (String (digit_char (year d / 1000))
                (String (digit_char (year d / 100))
                  (String (digit_char (year d / 10))
                    (String (digit_char (year d)) EmptyString))))))))).

(** [s.replace(a, b)] for single characters. *)
Fixpoint replace (a b : ascii) (s : string) : string :=
  match s with
  | EmptyString => EmptyString
  | String c s' => String (if Ascii.eqb c a then b else c) (replace a b s')
  end.

(** Lines 39, 40, 206 and 207 of [src/download_and_format_gilts.py]: the
    path that [download_gilts_data] saves the download for [date_str]
    to. *)
Definition download_path (script_dir date_str : string) : string :=
  let output_dir := join script_dir "downloads" in
  let file_date := replace slash "-"%char date_str in
  join output_dir ("gilts_in_issue_" +:+ file_date +:+ ".xls").

(** A number on two digits and on four. *)
Definition two_digits (n : nat) : string :=
  String (digit_char (n / 10)) (String (digit_char n) EmptyString).

Definition four_digits (n : nat) : string :=
  String (digit_char (n / 1000))
    (String (digit_char (n / 100))
      (String (digit_char (n / 10))
        (String (digit_char n) EmptyString))).

(** A date of the calendar with a year of four digits. *)
Definition calendar_date (d : date) : Prop :=
  1000 <= year d < 100 * 100
  /\ 1 <= month d <= 12
  /\ 1 <= day d <= days_in_month (year d) (month d).

(** [c] occurs in [s]. *)
Fixpoint has_char (c : ascii) (s : string) : bool :=
  match s with
  | EmptyString => false
  | String a s' => Ascii.eqb a c || has_char c s'
  end.


(** The last character of a string, if it has one. *)
Fixpoint last_char (s : string) : option ascii :=
  match s with
  | EmptyString => None
  | String a EmptyString => Some a
  | String _ s' => last_char s'
  end.

(** A string with no white space at either end. *)
Definition trimmed_string (s : string) : Prop :=
  match s with
  | EmptyString => True
  | String a _ =>
      Py.isspace a = false
      /\ exists z, last_char s = Some z /\ Py.isspace z = false
  end.

(** Row [i] comes after the header row, has a cell that is not blank and
    no group label in its first cell. *)
Definition data_row (sh : sheet) (header_row_idx i : nat) : Prop :=
  header_row_idx < i < nrows sh
  /\ ~ all_blank (trimmed sh i)
  /\ ~ is_group_label (trimmed sh i).


(** Two downloads and a file of another name beside a script in [/app];
    the download of 31 December was changed last. *)
Definition downloads_world : world :=
  World (Date 2026 11 4) "/app"
    (fun p =>
       if String.eqb p "/app/downloads/gilts_in_issue_31-12-2024.xls" then 2
       else 1)
    {[ "/app/downloads/gilts_in_issue_30-12-2024.xls"
         := File (Xls (Workbook [early_header_sheet]));
       "/app/downloads/gilts_in_issue_31-12-2024.xls"
         := File (Xls (Workbook [gilts_sheet]));
       "/app/downloads/notes.txt" := File (Raw "see the DMO site") ]}
    [].

(** ** Lemmas on strings and lists *)

Arguments Py.mem : simpl never.
Arguments Py.any : simpl never.
Arguments Py.contains : simpl never.
Arguments Py.strip : simpl never.
Arguments row_values : simpl never.
Arguments cell_value : simpl never.
Arguments csv_record : simpl never.

Lemma append_empty_r (s : string) : s +:+ EmptyString = s.
Proof.
  induction s as [|c s IH]; [reflexivity|].
  change (String c (s +:+ EmptyString) = String c s). now rewrite IH.
Qed.

Lemma append_assoc (a b c : string) : (a +:+ b) +:+ c = a +:+ (b +:+ c).
Proof.
  induction a as [|x a IH]; [reflexivity|].
  change (String x ((a +:+ b) +:+ c) = String x (a +:+ (b +:+ c))).
  now rewrite IH.
Qed.

Lemma skipn_nth_error {A} (r : list A) (a : nat) (v : A) :
  nth_error r a = Some v -> skipn a r = v :: skipn (S a) r.
Proof.
  revert a. induction r as [|x r IH]; intros [|a]; simpl; try discriminate.
  - now intros [= ->].
  - intros H. now apply IH.
Qed.

Lemma mem_In (x : string) (xs : list string) :
  Py.mem x xs = true <-> In x xs.
Proof.
  unfold Py.mem. rewrite existsb_exists. split.
  - intros (y & Hy & E). apply String.eqb_eq in E. now subst.
  - intros H. exists x. split; [assumption | apply String.eqb_refl].
Qed.

Lemma nonempty_false (s : string) : Py.nonempty s = false <-> s = EmptyString.
Proof. destruct s; simpl; split; congruence. Qed.

Lemma any_false (xs : list string) :
  Py.any xs = false <-> all_blank xs.
Proof.
  unfold Py.any, all_blank. induction xs as [|x xs IH]; simpl.
  - split; [constructor | reflexivity].
  - rewrite orb_false_iff, IH, nonempty_false. split.
    + intros [-> H]. now constructor.
    + intros H. inversion H; subst. now split.
Qed.

Lemma index_Ok {A} (xs : list A) (i : nat) (x : A) :
  index xs i = Ok x <-> nth_error xs i = Some x.
Proof. unfold index. destruct (nth_error xs i); split; congruence. Qed.

Lemma index_Raise {A} (xs : list A) (i : nat) (e : exn) :
  index xs i = Raise e -> e = IndexError /\ length xs <= i.
Proof.
  unfold index. destruct (nth_error xs i) eqn:E; [discriminate|].
  intros [= <-]. split; [reflexivity | now apply nth_error_None].
Qed.

Lemma comprehension_ext {A B} (f g : A -> outcome B) (xs : list A) :
  (forall x, In x xs -> f x = g x) -> comprehension f xs = comprehension g xs.
Proof.
  induction xs as [|x xs IH]; simpl; intros H; [reflexivity|].
  rewrite (H x) by now left. rewrite IH by (intros; apply H; now right).
  reflexivity.
Qed.

Lemma comprehension_length {A B} (f : A -> outcome B) (xs : list A) ys :
  comprehension f xs = Ok ys -> length ys = length xs.
Proof.
  revert ys. induction xs as [|x xs IH]; simpl; intros ys.
  - now intros [= <-].
  - destruct (f x); simpl; [|discriminate].
    destruct (comprehension f xs); simpl; [|discriminate].
    intros [= <-]. simpl. f_equal. now apply IH.
Qed.

Lemma comprehension_Raise {A B} (f : A -> outcome B) (xs : list A) e :
  comprehension f xs = Raise e -> exists x, In x xs /\ f x = Raise e.
Proof.
  induction xs as [|x xs IH]; simpl; [discriminate|].
  destruct (f x) eqn:E; simpl.
  - destruct (comprehension f xs); simpl; [discriminate|].
    intros [= <-]. destruct IH as (y & Hy & Ey); [reflexivity|].
    exists y. split; [now right | assumption].
  - intros [= <-]. exists x. split; [now left | assumption].
Qed.

(** Reading the cells [a], [a+1], ... of one row. *)
Lemma comprehension_row {B} (g : cell -> B) (r : list cell) (n a : nat) ys :
  comprehension (fun j => let? v := index r j in Ok (g v)) (seq a n) = Ok ys ->
  ys = map g (firstn n (skipn a r)) /\ (n = 0 \/ a + n <= length r).
Proof.
  revert a ys. induction n as [|n IH]; simpl; intros a ys.
  - intros [= <-]. split; [reflexivity | now left].
  - destruct (index r a) as [v|] eqn:E; simpl; [|discriminate].
    destruct (comprehension _ (seq (S a) n)) as [zs|] eqn:C; simpl; [|discriminate].
    intros [= <-]. apply index_Ok in E.
    destruct (IH _ _ C) as [-> Hlen].
    assert (Hlt : a < length r) by (apply nth_error_Some; congruence).
    rewrite (skipn_nth_error r a v) by assumption.
    split; [reflexivity | right].
    destruct Hlen as [->|]; lia.
Qed.

Lemma comprehension_row_Ok {B} (g : cell -> B) (r : list cell) (n a : nat) :
  a + n <= length r ->
  comprehension (fun j => let? v := index r j in Ok (g v)) (seq a n)
  = Ok (map g (firstn n (skipn a r))).
Proof.
  revert a. induction n as [|n IH]; simpl; intros a Hlen; [reflexivity|].
  destruct (nth_error r a) as [v|] eqn:E.
  - rewrite (proj2 (index_Ok r a v) E). simpl.
    rewrite IH by lia. simpl.
    now rewrite (skipn_nth_error r a v E).
  - apply nth_error_None in E. lia.
Qed.

(** ** Reading a row *)

Lemma row_at_nth_error (sh : sheet) (i : nat) (r : list cell) :
  nth_error (cells sh) i = Some r -> row_at sh i = r.
Proof. intros H. unfold row_at. now apply nth_error_nth. Qed.

Lemma cell_value_Ok (sh : sheet) (i j : nat) (v : cell) :
  cell_value sh i j = Ok v ->
  i < nrows sh /\ nth_error (row_at sh i) j = Some v.
Proof.
  unfold cell_value. destruct (index (cells sh) i) as [r|] eqn:E; simpl;
    [|discriminate].
  apply index_Ok in E. intros H. apply index_Ok in H.
  rewrite (row_at_nth_error _ _ _ E). split; [|assumption].
  apply nth_error_Some. unfold nrows. congruence.
Qed.

Lemma cell_value_Raise (sh : sheet) (i j : nat) (e : exn) :
  cell_value sh i j = Raise e -> e = IndexError.
Proof.
  unfold cell_value. destruct (index (cells sh) i) as [r|] eqn:E; simpl.
  - intros H. now apply index_Raise in H.
  - intros [= <-]. now apply index_Raise in E.
Qed.

Lemma row_values_Ok (sh : sheet) (i : nat) (rv : list string) :
  row_values sh i = Ok rv ->
  rv = trimmed sh i /\ length rv = ncols sh
  /\ (ncols sh = 0 \/ (i < nrows sh /\ ncols sh <= length (row_at sh i))).
Proof.
  unfold row_values, range. rewrite Nat.sub_0_r. intros H.
  assert (Hlen : length rv = ncols sh)
    by (apply comprehension_length in H; now rewrite length_seq in H).
  split; [|split; [assumption|]].
  - destruct (nth_error (cells sh) i) as [r|] eqn:E.
    + rewrite (comprehension_ext _
        (fun j => let? v := index r j in Ok (Py.strip (str v)))) in H.
      * apply comprehension_row in H. destruct H as [-> _].
        unfold trimmed. now rewrite (row_at_nth_error _ _ _ E).
      * intros j _. unfold cell_value.
        now rewrite (proj2 (index_Ok _ _ _) E).
    + destruct (ncols sh) as [|n] eqn:En.
      * simpl in H. injection H as <-. unfold trimmed. now rewrite En.
      * simpl in H. unfold cell_value, index in H. now rewrite E in H.
  - destruct (ncols sh) as [|n] eqn:En; [now left | right].
    destruct (nth_error (cells sh) i) as [r|] eqn:E.
    + rewrite (comprehension_ext _
        (fun j => let? v := index r j in Ok (Py.strip (str v)))) in H.
      * apply comprehension_row in H. destruct H as [_ [H|H]]; [discriminate|].
        rewrite (row_at_nth_error _ _ _ E). split; [|lia].
        apply nth_error_Some. unfold nrows. congruence.
      * intros j _. unfold cell_value.
        now rewrite (proj2 (index_Ok _ _ _) E).
    + simpl in H. unfold cell_value, index in H. now rewrite E in H.
Qed.

Lemma row_values_Raise (sh : sheet) (i : nat) (e : exn) :
  row_values sh i = Raise e -> e = IndexError.
Proof.
  unfold row_values. intros H. apply comprehension_Raise in H.
  destruct H as (j & _ & H).
  destruct (cell_value sh i j) eqn:E; simpl in H; [discriminate|].
  injection H as <-. now apply cell_value_Raise in E.
Qed.

Lemma row_values_readable (sh : sheet) (i : nat) :
  i < nrows sh -> ncols sh <= length (row_at sh i) ->
  row_values sh i = Ok (trimmed sh i).
Proof.
  intros Hi Hlen. unfold row_values, range. rewrite Nat.sub_0_r.
  destruct (nth_error (cells sh) i) as [r|] eqn:E.
  - rewrite (comprehension_ext _
      (fun j => let? v := index r j in Ok (Py.strip (str v)))).
    + rewrite (row_at_nth_error _ _ _ E) in Hlen.
      rewrite comprehension_row_Ok by (simpl; lia).
      unfold trimmed. now rewrite (row_at_nth_error _ _ _ E).
    + intros j _. unfold cell_value. now rewrite (proj2 (index_Ok _ _ _) E).
  - apply nth_error_None in E. unfold nrows in Hi. lia.
Qed.

Lemma padded_row_length (sh : sheet) (i : nat) :
  padded sh -> i < nrows sh -> length (row_at sh i) = ncols sh.
Proof.
  unfold padded, nrows, row_at. intros H Hi.
  rewrite List.Forall_forall in H. apply H. now apply nth_In.
Qed.

Lemma row_values_padded (sh : sheet) (i : nat) :
  padded sh -> i < nrows sh -> row_values sh i = Ok (trimmed sh i).
Proof.
  intros Hp Hi. apply row_values_readable; [assumption|].
  now rewrite padded_row_length.
Qed.

Lemma trimmed_length (sh : sheet) (i : nat) :
  padded sh -> i < nrows sh -> length (trimmed sh i) = ncols sh.
Proof.
  intros Hp Hi. unfold trimmed.
  rewrite length_map, length_firstn, padded_row_length by assumption. lia.
Qed.

(** ** The loops and their views *)

Lemma world_eta (w : world) : set_fs (fs w) w = w.
Proof. now destruct w. Qed.

Lemma find_header_row_eq (sh : sheet) (idxs : list nat) (w : world) :
  FormatGiltsCsv.find_header_row sh idxs w =
  match header_scan sh idxs with
  | Ok (Some i) =>
      (Ok (Some i), set_console (console w ++ [FoundHeaderRow i]) w)
  | Ok None => (Ok None, w)
  | Raise e => (Raise e, w)
  end.
Proof.
  induction idxs as [|i rest IH]; simpl; [reflexivity|].
  unfold bind, lift. destruct (row_values sh i) as [rv|e]; simpl;
    [|reflexivity].
  destruct (Py.mem "ISIN Code" rv && Py.mem "Redemption Date" rv);
    [reflexivity | apply IH].
Qed.

Lemma find_header_row_same :
  DownloadAndFormatGilts.find_header_row = FormatGiltsCsv.find_header_row.
Proof. reflexivity. Qed.

Lemma identify_section_headers_same :
  DownloadAndFormatGilts.identify_section_headers
  = FormatGiltsCsv.identify_section_headers.
Proof. reflexivity. Qed.

Lemma write_data_rows_same :
  DownloadAndFormatGilts.write_data_rows = FormatGiltsCsv.write_data_rows.
Proof. reflexivity. Qed.

Lemma formatted_date_same :
  DownloadAndFormatGilts.formatted_date = FormatGiltsCsv.formatted_date.
Proof. reflexivity. Qed.

Lemma holding_lookup (p t : string) (w : world) :
  fs (holding p t w) !! p = Some (File (Raw t)).
Proof. unfold holding. simpl. apply lookup_insert_eq. Qed.

Lemma holding_lookup_ne (p p' t : string) (w : world) :
  p <> p' -> fs (holding p t w) !! p' = fs w !! p'.
Proof. intros H. unfold holding. simpl. now apply lookup_insert_ne. Qed.

Lemma holding_holding (p t t' : string) (w : world) :
  holding p t' (holding p t w) = holding p t' w.
Proof. unfold holding, set_fs. simpl. now rewrite insert_insert_eq. Qed.

Lemma holding_console (p t : string) (w : world) :
  console (holding p t w) = console w.
Proof. reflexivity. Qed.

Lemma open_w_eq (p : string) (w : world) :
  open_w p w =
  match fs w !! p with
  | Some Dir => (Raise IsADirectoryError, w)
  | _ => (Ok p, holding p EmptyString w)
  end.
Proof. unfold open_w. now destruct (fs w !! p) as [[|c]|]. Qed.

Lemma writerow_eq (q : quoting) (p t : string) (row : list string) (w : world) :
  writer_writerow (Writer p q) row (holding p t w)
  = (Ok tt, holding p (t +:+ csv_record q row) w).
Proof.
  unfold writer_writerow, writerow, write. simpl csvfile.
  rewrite holding_lookup. f_equal. apply (holding_holding p t _ w).
Qed.

Lemma write_data_rows_eq (q : quoting) (p : string) (sh : sheet)
    (idxs : list nat) (t : string) (w : world) :
  FormatGiltsCsv.write_data_rows (Writer p q) sh idxs (holding p t w)
  = (snd (data_rows sh idxs),
     holding p (t +:+ csv_text q (fst (data_rows sh idxs))) w).
Proof.
  revert t. induction idxs as [|i rest IH]; intros t; simpl.
  - now rewrite append_empty_r.
  - unfold bind, lift. destruct (row_values sh i) as [rv|e]; simpl.
    + destruct (Py.any rv); simpl; [|apply IH].
      destruct (index rv 0) as [first|e]; simpl.
      * destruct (Py.mem first group_labels); [apply IH|].
        rewrite writerow_eq, IH. simpl. now rewrite append_assoc.
      * now rewrite append_empty_r.
    + now rewrite append_empty_r.
Qed.

Lemma append_empty_l (s : string) : EmptyString +:+ s = s.
Proof. reflexivity. Qed.

Lemma csv_text_cons (q : quoting) (r : list string) (rows : list (list string)) :
  csv_text q (r :: rows) = csv_record q r +:+ csv_text q rows.
Proof. reflexivity. Qed.

Ltac with_block_steps :=
  intros; unfold bind, lift;
  rewrite open_w_eq;
  match goal with
  | |- context [fs ?w !! ?p] => destruct (fs w !! p) as [[|?]|]
  end; try reflexivity;
  unfold written_rows;
  repeat match goal with
    | |- context [row_values ?sh ?i] =>
        destruct (row_values sh i); simpl fst; simpl snd; cbv iota beta;
        [rewrite writerow_eq|]
    end;
  rewrite ?write_data_rows_eq;
  rewrite ?csv_text_cons; simpl csv_text;
  rewrite ?append_empty_l, ?append_empty_r, ?append_assoc; reflexivity.

Lemma write_csv_eq (p : string) (sh : sheet) (h : nat) (w : world) :
  FormatGiltsCsv.write_csv p sh h w =
  match fs w !! p with
  | Some Dir => (Raise IsADirectoryError, w)
  | _ => (snd (written_rows sh h),
          holding p (csv_text QUOTE_MINIMAL (fst (written_rows sh h))) w)
  end.
Proof. unfold FormatGiltsCsv.write_csv. with_block_steps. Qed.

Lemma write_csv_all_eq (p : string) (sh : sheet) (h : nat) (w : world) :
  DownloadAndFormatGilts.write_csv p sh h w =
  match fs w !! p with
  | Some Dir => (Raise IsADirectoryError, w)
  | _ => (snd (written_rows sh h),
          holding p (csv_text QUOTE_ALL (fst (written_rows sh h))) w)
  end.
Proof.
  unfold DownloadAndFormatGilts.write_csv. rewrite write_data_rows_same.
  with_block_steps.
Qed.

(** ** The whole conversion in one view *)

Lemma strptime_Raise (s : string) (e : exn) :
  strptime s = Raise e -> e = ValueError.
Proof.
  unfold strptime.
  destruct (Py.split "-" s) as [|d [|m [|y [|? ?]]]]; try congruence.
  destruct (directive_d d), (directive_m m), (directive_Y y); try congruence.
  destruct (_ && _); congruence.
Qed.

Lemma formatted_date_eq (excel_file : string) (w : world) :
  FormatGiltsCsv.formatted_date excel_file w = (Ok (date_of w excel_file), w).
Proof.
  unfold FormatGiltsCsv.formatted_date, date_of, try_except, bind, lift.
  fold (date_str excel_file).
  destruct (strptime (date_str excel_file)) as [d|e] eqn:E; [reflexivity|].
  now rewrite (strptime_Raise _ _ E).
Qed.

Ltac same_world :=
  unfold say, holding, set_console, set_fs, failed; simpl;
  rewrite <- ?app_assoc; reflexivity.

Ltac try_statement_steps :=
  intros; unfold try_except, bind, lift, open_workbook, sheet_by_index,
    convert_view;
  match goal with
  | |- context [fs ?w !! ?f] =>
      destruct (fs w !! f) as [[|[?|?]]|]; try same_world
  end;
  match goal with
  | |- context [sheets ?wb] => destruct (sheets wb) as [|? ?]; [same_world|]
  end;
  cbn [index nth_error]; unfold print at 1 2; cbv iota beta;
  rewrite find_header_row_eq;
  match goal with
  | |- context [header_scan ?sh ?l] =>
      destruct (header_scan sh l) as [[?|]|]; try same_world
  end;
  match goal with
  | |- context [FormatGiltsCsv.identify_section_headers ?sh ?h ?l ?a] =>
      destruct (FormatGiltsCsv.identify_section_headers sh h l a);
      try same_world
  end;
  unfold print at 1; cbv iota beta.

Lemma convert_eq (excel_file output_dir : string) (w : world) :
  FormatGiltsCsv.convert excel_file output_dir w
  = convert_view QUOTE_MINIMAL (map S) excel_file output_dir w.
Proof.
  unfold FormatGiltsCsv.convert. unfold try_except at 1. unfold bind at 1.
  rewrite formatted_date_eq. fold (csv_path_of w excel_file output_dir).
  try_statement_steps.
  rewrite write_csv_eq. simpl fs.
  destruct (fs w !! csv_path_of w excel_file output_dir) as [[|?]|];
    try same_world;
    destruct (snd (written_rows _ _)); same_world.
Qed.

Lemma convert_all_eq (excel_file output_dir : string) (w : world) :
  DownloadAndFormatGilts.convert excel_file output_dir w
  = convert_view QUOTE_ALL (fun l => l) excel_file output_dir w.
Proof.
  unfold DownloadAndFormatGilts.convert. unfold try_except at 1.
  unfold bind at 1.
  rewrite formatted_date_same, formatted_date_eq.
  fold (csv_path_of w excel_file output_dir).
  rewrite find_header_row_same, identify_section_headers_same.
  try_statement_steps.
  rewrite write_csv_all_eq. simpl fs.
  destruct (fs w !! csv_path_of w excel_file output_dir) as [[|?]|];
    try same_world;
    destruct (snd (written_rows _ _)); same_world.
Qed.

Lemma makedirs_keeps (p : string) (w w1 : world) (o : outcome unit) :
  makedirs p w = (o, w1) ->
  today w1 = today w /\ here w1 = here w /\ getmtime w1 = getmtime w
  /\ console w1 = console w.
Proof.
  unfold makedirs.
  destruct (fs w !! p) as [[|?]|]; [| |destruct (Py.nonempty p)];
    intros [= <- <-]; repeat split.
Qed.

Lemma convert_existing_eq (excel_file output_dir : string) (w : world) :
  FormatGiltsCsv.convert_existing excel_file output_dir w
  = existing_view QUOTE_MINIMAL (map S) excel_file output_dir w.
Proof.
  unfold FormatGiltsCsv.convert_existing, existing_view, bind, exists_.
  destruct (fs w !! excel_file) as [n|] eqn:E.
  - rewrite bool_decide_eq_true_2 by eauto. simpl. apply convert_eq.
  - rewrite bool_decide_eq_false_2 by (intros [? ?]; congruence). reflexivity.
Qed.

Lemma convert_existing_all_eq (excel_file output_dir : string) (w : world) :
  DownloadAndFormatGilts.convert_existing excel_file output_dir w
  = existing_view QUOTE_ALL (fun l => l) excel_file output_dir w.
Proof.
  unfold DownloadAndFormatGilts.convert_existing, existing_view, bind, exists_.
  destruct (fs w !! excel_file) as [n|] eqn:E.
  - rewrite bool_decide_eq_true_2 by eauto. simpl. apply convert_all_eq.
  - rewrite bool_decide_eq_false_2 by (intros [? ?]; congruence). reflexivity.
Qed.

Ltac call_steps lemma :=
  let E := fresh "E" in
  let Hh := fresh "Hh" in
  let w1 := fresh "w1" in
  unfold call_view, directory, chosen, bind, script_dir, ret, glob_gilts,
    raise;
  match goal with
  | |- context [match ?od with None => _ | Some _ => _ end] =>
      is_var od; destruct od
  end;
  (match goal with
   | |- context [makedirs ?d ?w] =>
       destruct (makedirs d w) as [[[]|?] w1] eqn:E; [|reflexivity];
       destruct (makedirs_keeps _ _ _ _ E) as (_ & Hh & _ & _)
   end;
   match goal with
   | |- context [match ?ef with None => _ | Some _ => _ end] =>
       is_var ef; destruct ef
   end;
   [apply lemma|];
   rewrite ?Hh;
   try match goal with
     | |- context [if ?b then _ else _] =>
         is_var b; destruct b; [|reflexivity]
     end;
   match goal with
   | |- context [List.filter ?f ?l] => destruct (List.filter f l)
   end; [reflexivity | apply lemma]).

Lemma format_gilts_csv_eq (excel_file output_dir : option string) (w : world) :
  FormatGiltsCsv.format_gilts_csv excel_file output_dir w
  = call_view QUOTE_MINIMAL (map S) true excel_file output_dir w.
Proof.
  unfold FormatGiltsCsv.format_gilts_csv. call_steps convert_existing_eq.
Qed.

Lemma format_gilts_csv_all_eq (glob_bound : bool)
    (excel_file output_dir : option string) (w : world) :
  DownloadAndFormatGilts.format_gilts_csv glob_bound excel_file output_dir w
  = call_view QUOTE_ALL (fun l => l) glob_bound excel_file output_dir w.
Proof.
  unfold DownloadAndFormatGilts.format_gilts_csv.
  call_steps convert_existing_all_eq.
Qed.

(** ** The header scan *)

Lemma has_header_names_iff (rv : list string) :
  Py.mem "ISIN Code" rv && Py.mem "Redemption Date" rv = true
  <-> has_header_names rv.
Proof. unfold has_header_names. now rewrite andb_true_iff, !mem_In. Qed.

Lemma header_scan_Some (sh : sheet) (n a h : nat) :
  header_scan sh (seq a n) = Ok (Some h) ->
  a <= h < a + n /\ has_header_names (trimmed sh h)
  /\ forall k, a <= k < h -> ~ has_header_names (trimmed sh k).
Proof.
  revert a. induction n as [|n IH]; simpl; intros a; [discriminate|].
  destruct (row_values sh a) as [rv|e] eqn:E; simpl; [|discriminate].
  apply row_values_Ok in E. destruct E as (-> & _).
  destruct (Py.mem _ _ && Py.mem _ _) eqn:B.
  - intros [= <-]. apply has_header_names_iff in B.
    split; [lia | split; [assumption | intros k Hk; lia]].
  - intros H. apply IH in H. destruct H as (Hr & Hh & Hb).
    split; [lia | split; [assumption|]].
    intros k Hk. destruct (Nat.eq_dec k a) as [->|Hne].
    + rewrite <- has_header_names_iff. congruence.
    + apply Hb. lia.
Qed.

Lemma header_scan_None (sh : sheet) (n a : nat) :
  header_scan sh (seq a n) = Ok None ->
  forall k, a <= k < a + n -> ~ has_header_names (trimmed sh k).
Proof.
  revert a. induction n as [|n IH]; simpl; intros a; [intros _ k Hk; lia|].
  destruct (row_values sh a) as [rv|e] eqn:E; simpl; [|discriminate].
  apply row_values_Ok in E. destruct E as (-> & _).
  destruct (Py.mem _ _ && Py.mem _ _) eqn:B; [discriminate|].
  intros H k Hk. destruct (Nat.eq_dec k a) as [->|Hne].
  - rewrite <- has_header_names_iff. congruence.
  - apply (IH _ H). lia.
Qed.

Lemma header_scan_padded (sh : sheet) (n a : nat) :
  padded sh -> a + n <= nrows sh ->
  exists r, header_scan sh (seq a n) = Ok r.
Proof.
  intros Hp. revert a. induction n as [|n IH]; simpl; intros a Hn;
    [now exists None|].
  rewrite row_values_padded by (assumption || lia). simpl.
  destruct (Py.mem _ _ && Py.mem _ _); [now eexists|].
  apply IH. lia.
Qed.

(** The scan only reads the rows it is given. *)
Lemma header_scan_local (sh sh' : sheet) (idxs : list nat) :
  (forall i, In i idxs -> row_values sh' i = row_values sh i) ->
  header_scan sh' idxs = header_scan sh idxs.
Proof.
  induction idxs as [|i rest IH]; simpl; intros H; [reflexivity|].
  rewrite (H i) by now left. rewrite IH by (intros; apply H; now right).
  reflexivity.
Qed.

Lemma has_header_names_in_range (sh : sheet) (i : nat) :
  has_header_names (trimmed sh i) -> i < nrows sh.
Proof.
  intros [H _]. unfold trimmed, row_at, nrows in *.
  destruct (Nat.lt_ge_cases i (length (cells sh))) as [|Hge]; [assumption|].
  rewrite nth_overflow in H by assumption.
  rewrite firstn_nil in H. contradiction.
Qed.

(** ** The data rows *)

Lemma data_rows_Ok (sh : sheet) (idxs : list nat) :
  snd (data_rows sh idxs) = Ok tt ->
  fst (data_rows sh idxs) = map (trimmed sh) (List.filter (kept sh) idxs).
Proof.
  induction idxs as [|i rest IH]; simpl; [reflexivity|].
  destruct (row_values sh i) as [rv|e] eqn:E; [|discriminate].
  apply row_values_Ok in E. destruct E as (E & _).
  unfold kept at 1. rewrite <- E.
  destruct (Py.any rv) eqn:A; simpl; [|assumption].
  destruct rv as [|first rv']; [discriminate A|]. simpl.
  destruct (Py.mem first group_labels); simpl; [assumption|].
  intros H. rewrite <- E. now rewrite IH.
Qed.

Lemma written_rows_Ok (sh : sheet) (h : nat) :
  snd (written_rows sh h) = Ok tt ->
  fst (written_rows sh h)
  = trimmed sh 0 :: trimmed sh 5 :: trimmed sh h
    :: map (trimmed sh) (List.filter (kept sh) (range (h + 1) (nrows sh)))
  /\ row_values sh 5 = Ok (trimmed sh 5).
Proof.
  unfold written_rows.
  destruct (row_values sh 0) as [r0|] eqn:E0; [|discriminate].
  destruct (row_values sh 5) as [r5|] eqn:E5; [|discriminate].
  destruct (row_values sh h) as [rh|] eqn:Eh; [|discriminate].
  simpl. intros H. rewrite (data_rows_Ok _ _ H).
  apply row_values_Ok in E0, E5, Eh.
  destruct E0 as (-> & _), E5 as (-> & _), Eh as (-> & _). now split.
Qed.

(** ** The section headers *)

Lemma nth_error_nth_default {A} (l : list A) (j : nat) (d v : A) :
  nth_error l j = Some v -> nth j l d = v.
Proof. apply nth_error_nth. Qed.

Lemma identify_section_headers_Ok (sh : sheet) (h : nat) (idxs acc secs : list nat) :
  FormatGiltsCsv.identify_section_headers sh h idxs acc = Ok secs ->
  secs = acc ++ List.filter (section_header sh h) idxs.
Proof.
  revert acc. induction idxs as [|i rest IH]; simpl; intros acc.
  - intros [= <-]. now rewrite app_nil_r.
  - destruct (cell_value sh i 0) as [first|] eqn:E0; simpl; [|discriminate].
    apply cell_value_Ok in E0. destruct E0 as (_ & E0).
    unfold section_header at 1. unfold label, second_cell.
    rewrite (nth_error_nth_default _ _ (Text EmptyString) _ E0).
    destruct (Py.mem (Py.strip (str first)) group_labels); simpl;
      [apply IH|].
    unfold FormatGiltsCsv.looks_like_section_header.
    destruct (Py.nonempty (Py.strip (str first))); simpl.
    + destruct (cell_value sh i 1) as [second|] eqn:E1; simpl; [|discriminate].
      apply cell_value_Ok in E1. destruct E1 as (_ & E1).
      rewrite (nth_error_nth_default _ _ (Text EmptyString) _ E1).
      destruct (_ || _); intros H; apply IH in H; subst secs;
        [now rewrite <- app_assoc | reflexivity].
    + destruct (_ && _); intros H; apply IH in H; subst secs;
        [now rewrite <- app_assoc | reflexivity].
Qed.

(** ** A call that succeeds *)

Lemma makedirs_files (p : string) (w w1 : world) (o : outcome unit) :
  makedirs p w = (o, w1) -> same_files w w1.
Proof.
  unfold makedirs, same_files.
  destruct (fs w !! p) as [[|?]|] eqn:E; [| |destruct (Py.nonempty p)];
    intros [= <- <-] p' c'; try reflexivity.
  simpl. destruct (decide (p = p')) as [<-|Hne].
  - rewrite lookup_insert_eq, E. split; congruence.
  - now rewrite lookup_insert_ne.
Qed.

Lemma makedirs_dirs (p : string) (w w1 : world) (o : outcome unit) :
  makedirs p w = (o, w1) ->
  forall p', fs w !! p' = Some Dir -> fs w1 !! p' = Some Dir.
Proof.
  unfold makedirs.
  destruct (fs w !! p) as [[|?]|] eqn:E; [| |destruct (Py.nonempty p)];
    intros [= <- <-] p' H; try assumption.
  simpl. destruct (decide (p = p')) as [<-|Hne].
  - apply lookup_insert_eq.
  - now rewrite lookup_insert_ne.
Qed.

Lemma existing_view_success (q : quoting) (shown : list nat -> list nat)
    (f dir : string) (w : world) (path : string) :
  fst (existing_view q shown f dir w) = Ok (Some path) ->
  exists sh h,
    first_sheet w f sh
    /\ header_scan sh (range 0 (Nat.min 15 (nrows sh))) = Ok (Some h)
    /\ FormatGiltsCsv.identify_section_headers sh h
         (range (h + 1) (nrows sh)) [] = Ok (recorded sh h)
    /\ snd (written_rows sh h) = Ok tt
    /\ path = csv_path_of w f dir
    /\ exists n,
         snd (existing_view q shown f dir w)
         = say [ConvertingFile f; ExcelHasSheets n;
                SheetDimensions (nrows sh) (ncols sh); FoundHeaderRow h;
                FoundSectionHeaders (shown (recorded sh h));
                SuccessfullyConverted path]
             (holding path (csv_text q (fst (written_rows sh h))) w).
Proof.
  unfold existing_view, convert_view. simpl fs.
  destruct (fs w !! f) as [[|[[[|sh others]]|?]]|] eqn:Ef; simpl sheets;
    cbv iota beta; try discriminate.
  destruct (header_scan sh _) as [[h|]|] eqn:Eh; try discriminate.
  destruct (FormatGiltsCsv.identify_section_headers sh h _ _) as [secs|]
    eqn:Es; try discriminate.
  pose proof (identify_section_headers_Ok _ _ _ _ _ Es) as Hs.
  simpl in Hs. fold (recorded sh h) in Hs. subst secs.
  change (csv_path_of (say [ConvertingFile f] w) f dir)
    with (csv_path_of w f dir).
  destruct (fs w !! csv_path_of w f dir) as [[|?]|];
    try discriminate;
    (destruct (snd (written_rows sh h)) as [[]|] eqn:Ew; try discriminate;
     simpl; intros [= <-];
     exists sh, h; repeat split; try assumption;
     [now exists others | eexists; same_world]).
Qed.

Lemma call_view_success (q : quoting) (shown : list nat -> list nat)
    (gb : bool) (ef od : option string) (w : world) (path : string) :
  fst (call_view q shown gb ef od w) = Ok (Some path) ->
  exists f sh h w1 n,
    makedirs (directory w od) w = (Ok tt, w1)
    /\ (forall f', ef = Some f' -> f' = f)
    /\ first_sheet w f sh
    /\ header_scan sh (range 0 (Nat.min 15 (nrows sh))) = Ok (Some h)
    /\ FormatGiltsCsv.identify_section_headers sh h
         (range (h + 1) (nrows sh)) [] = Ok (recorded sh h)
    /\ snd (written_rows sh h) = Ok tt
    /\ path = csv_path_of w f (directory w od)
    /\ snd (call_view q shown gb ef od w)
       = say [ConvertingFile f; ExcelHasSheets n;
              SheetDimensions (nrows sh) (ncols sh); FoundHeaderRow h;
              FoundSectionHeaders (shown (recorded sh h));
              SuccessfullyConverted path]
           (holding path (csv_text q (fst (written_rows sh h))) w1).
Proof.
  unfold call_view.
  destruct (makedirs (directory w od) w) as [[[]|e] w1] eqn:Em;
    [|discriminate].
  destruct (makedirs_keeps _ _ _ _ Em) as (Ht & _ & _ & _).
  pose proof (makedirs_files _ _ _ _ Em) as Hf.
  assert (Hpath : forall f, csv_path_of w1 f (directory w od)
                            = csv_path_of w f (directory w od))
    by (intros f; unfold csv_path_of, date_of; now rewrite Ht).
  assert (Hgo : forall f,
    (forall f', ef = Some f' -> f' = f) ->
    fst (existing_view q shown f (directory w od) w1) = Ok (Some path) ->
    exists f0 sh h w2 n,
      (Ok tt : outcome unit, w1) = (Ok tt, w2)
      /\ (forall f', ef = Some f' -> f' = f0)
      /\ first_sheet w f0 sh
      /\ header_scan sh (range 0 (Nat.min 15 (nrows sh))) = Ok (Some h)
      /\ FormatGiltsCsv.identify_section_headers sh h
           (range (h + 1) (nrows sh)) [] = Ok (recorded sh h)
      /\ snd (written_rows sh h) = Ok tt
      /\ path = csv_path_of w f0 (directory w od)
      /\ snd (existing_view q shown f (directory w od) w1)
         = say [ConvertingFile f0; ExcelHasSheets n;
                SheetDimensions (nrows sh) (ncols sh); FoundHeaderRow h;
                FoundSectionHeaders (shown (recorded sh h));
                SuccessfullyConverted path]
             (holding path (csv_text q (fst (written_rows sh h))) w2)).
  { intros f Hef H. apply existing_view_success in H.
    destruct H as (sh & h & (others & Hsh) & Hh & Hi & Hw & Hp & n & Hs).
    rewrite Hpath in Hp. exists f, sh, h, w1, n.
    repeat split; try assumption.
    exists others. now apply Hf. }
  destruct ef as [f|].
  - apply Hgo. now intros f' [= ->].
  - destruct gb; [|discriminate].
    destruct (chosen w1 None) as [f|]; [|discriminate].
    apply Hgo. discriminate.
Qed.

Lemma written_rows_lengths (sh : sheet) (h : nat) :
  snd (written_rows sh h) = Ok tt ->
  Forall (fun r => length r = ncols sh) (fst (written_rows sh h)).
Proof.
  intros H. destruct (written_rows_Ok _ _ H) as (-> & _).
  unfold written_rows in H.
  destruct (row_values sh 0) as [r0|] eqn:E0; [|discriminate].
  destruct (row_values sh 5) as [r5|] eqn:E5; [|discriminate].
  destruct (row_values sh h) as [rh|] eqn:Eh; [|discriminate].
  simpl in H. apply row_values_Ok in E0, E5, Eh.
  destruct E0 as (-> & L0 & _), E5 as (-> & L5 & _), Eh as (-> & Lh & _).
  repeat (constructor; [assumption|]).
  clear - H. induction (range (h + 1) (nrows sh)) as [|i rest IH];
    simpl in *; [constructor|].
  destruct (row_values sh i) as [rv|] eqn:E; [|discriminate].
  apply row_values_Ok in E. destruct E as (E & L & _).
  unfold kept at 1. rewrite <- E.
  destruct (Py.any rv) eqn:A; simpl; [|now apply IH].
  destruct rv as [|first rv']; [discriminate A|]. simpl in *.
  destruct (Py.mem first group_labels); simpl in *; [now apply IH|].
  constructor; [now rewrite <- E | now apply IH].
Qed.

Lemma header_scan_header_at (sh : sheet) (h : nat) :
  header_scan sh (range 0 (Nat.min 15 (nrows sh))) = Ok (Some h) ->
  header_at sh h.
Proof.
  unfold range. rewrite Nat.sub_0_r. intros H.
  apply header_scan_Some in H. destruct H as (Hr & Hn & Hb).
  split; [lia | split; [assumption | intros k Hk; apply Hb; lia]].
Qed.

Lemma trimmed_le (sh : sheet) (i : nat) : length (trimmed sh i) <= ncols sh.
Proof. unfold trimmed. rewrite length_map. apply firstn_le_length. Qed.

Lemma header_names_need_columns (sh : sheet) (i : nat) :
  has_header_names (trimmed sh i) -> 0 < ncols sh.
Proof.
  intros [H _]. pose proof (trimmed_le sh i).
  destruct (trimmed sh i); [contradiction | simpl in *; lia].
Qed.

Lemma header_at_unique (sh : sheet) (h h' : nat) :
  header_at sh h -> header_at sh h' -> h = h'.
Proof.
  intros (_ & Hn & Hb) (_ & Hn' & Hb').
  destruct (Nat.lt_trichotomy h h') as [Hlt|[->|Hlt]]; [|reflexivity|].
  - now apply Hb' in Hlt.
  - now apply Hb in Hlt.
Qed.

(** What a successful call of [FormatGiltsCsv.format_gilts_csv] leaves. *)
Lemma format_gilts_csv_success (ef od : option string) (w : world)
    (path : string) :
  fst (FormatGiltsCsv.format_gilts_csv ef od w) = Ok (Some path) ->
  exists f sh h,
    (forall f', ef = Some f' -> f' = f)
    /\ first_sheet w f sh
    /\ header_at sh h
    /\ snd (written_rows sh h) = Ok tt
    /\ path = csv_path_of w f (directory w od)
    /\ fs (snd (FormatGiltsCsv.format_gilts_csv ef od w)) !! path
       = Some (File (Raw (csv_text QUOTE_MINIMAL (fst (written_rows sh h)))))
    /\ (exists n,
          printed w (snd (FormatGiltsCsv.format_gilts_csv ef od w))
            [ConvertingFile f; ExcelHasSheets n;
             SheetDimensions (nrows sh) (ncols sh); FoundHeaderRow h;
             FoundSectionHeaders (map S (recorded sh h));
             SuccessfullyConverted path])
    /\ (forall p c, p <> path ->
          fs (snd (FormatGiltsCsv.format_gilts_csv ef od w)) !! p
          = Some (File c) <-> fs w !! p = Some (File c)).
Proof.
  rewrite format_gilts_csv_eq. intros H.
  apply call_view_success in H.
  destruct H as (f & sh & h & w1 & n & Em & Hef & Hsh & Hh & Hi & Hw & Hp & Hs).
  exists f, sh, h. rewrite Hs.
  repeat split; try assumption; try (now apply header_scan_header_at).
  - simpl. apply lookup_insert_eq.
  - exists n. unfold printed. simpl.
    destruct (makedirs_keeps _ _ _ _ Em) as (_ & _ & _ & ->). reflexivity.
  - simpl. rewrite lookup_insert_ne by congruence.
    apply (makedirs_files _ _ _ _ Em).
  - simpl. rewrite lookup_insert_ne by congruence.
    apply (makedirs_files _ _ _ _ Em).
Qed.

(** ** The claims *)

(** C2. On a sheet as xlrd gives it, the header loop reads the rows 0 to
    min(15, nrows)-1 in this order and returns the first of them whose
    trimmed values have both ["ISIN Code"] and ["Redemption Date"] as
    members (equal strings, not parts of strings), or [None] when there is
    none; rows from index 15 on have no say in the result. *)
Theorem header_locator_first_match (sh : sheet) (w : world) :
  padded sh ->
  exists r,
    fst (FormatGiltsCsv.find_header_row sh
           (range 0 (Nat.min 15 (nrows sh))) w) = Ok r
    /\ (forall h, r = Some h <-> header_at sh h)
    /\ (r = None <->
        forall k, k < Nat.min 15 (nrows sh) ->
                  ~ has_header_names (trimmed sh k))
    /\ (forall sh',
          ncols sh' = ncols sh ->
          firstn 15 (cells sh') = firstn 15 (cells sh) ->
          fst (FormatGiltsCsv.find_header_row sh'
                 (range 0 (Nat.min 15 (nrows sh'))) w) = Ok r).
Proof.
  intros Hp.
  destruct (header_scan_padded sh (Nat.min 15 (nrows sh)) 0 Hp) as [r Hr];
    [lia|].
  assert (Hscan : header_scan sh (range 0 (Nat.min 15 (nrows sh))) = Ok r)
    by (unfold range; now rewrite Nat.sub_0_r).
  assert (Hnone : r = None ->
          forall k, k < Nat.min 15 (nrows sh) ->
                    ~ has_header_names (trimmed sh k)).
  { intros -> k Hk. apply (header_scan_None _ _ _ Hr). lia. }
  exists r. split; [|split; [|split]].
  - rewrite find_header_row_eq, Hscan. now destruct r as [h|].
  - intros h. split.
    + intros ->. now apply header_scan_header_at.
    + intros Hh. destruct r as [h'|].
      * f_equal. apply (header_at_unique sh); [|assumption].
        now apply header_scan_header_at.
      * destruct Hh as (Hlt & Hn & _). now apply (Hnone eq_refl) in Hn.
  - split; [assumption|]. intros Hb. destruct r as [h|]; [|reflexivity].
    apply header_scan_header_at in Hscan. destruct Hscan as (Hlt & Hn & _).
    now apply Hb in Hn.
  - intros sh' Hc Hf.
    assert (Hn : Nat.min 15 (nrows sh') = Nat.min 15 (nrows sh)).
    { unfold nrows. rewrite <- !length_firstn. now rewrite Hf. }
    rewrite find_header_row_eq, Hn.
    rewrite (header_scan_local sh sh'), Hscan; [now destruct r|].
    intros i Hi. unfold range in Hi. apply in_seq in Hi.
    unfold row_values. rewrite Hc. apply comprehension_ext. intros j _.
    unfold cell_value, index.
    assert (Hlt : (i <? 15) = true) by (apply Nat.ltb_lt; lia).
    pose proof (nth_error_firstn 15 (cells sh') i) as H1.
    pose proof (nth_error_firstn 15 (cells sh) i) as H2.
    rewrite Hlt in H1, H2. rewrite <- H1, <- H2, Hf. reflexivity.
Qed.

(** C4. After a successful conversion the first record of the file is row
    0 of the sheet, the second is the row at the fixed index 5 and the
    third is the header row that was found, each with every cell trimmed
    to a string, wherever the header row is. *)
Theorem fixed_rows_lead_the_output (ef od : option string) (w : world)
    (path : string) :
  fst (FormatGiltsCsv.format_gilts_csv ef od w) = Ok (Some path) ->
  exists f sh h rest,
    (forall f', ef = Some f' -> f' = f)
    /\ first_sheet w f sh
    /\ header_at sh h
    /\ 5 < nrows sh
    /\ fs (snd (FormatGiltsCsv.format_gilts_csv ef od w)) !! path
       = Some (File (Raw (csv_text QUOTE_MINIMAL
            (trimmed sh 0 :: trimmed sh 5 :: trimmed sh h :: rest)))).
Proof.
  intros H. apply format_gilts_csv_success in H.
  destruct H as (f & sh & h & Hef & Hsh & Hh & Hw & _ & Hfs & _).
  destruct (written_rows_Ok _ _ Hw) as (Hrows & H5).
  exists f, sh, h. eexists. repeat split; try apply Hh; try assumption.
  - apply row_values_Ok in H5. destruct H5 as (_ & _ & [H0|[H5 _]]);
      [|assumption].
    destruct Hh as (_ & Hn & _). apply header_names_need_columns in Hn. lia.
  - rewrite Hfs, Hrows. reflexivity.
Qed.

(** C10. After a successful conversion every record of the file, the three
    fixed ones and every data row, has as many fields as the sheet has
    columns. *)
Theorem output_is_rectangular (ef od : option string) (w : world)
    (path : string) :
  fst (FormatGiltsCsv.format_gilts_csv ef od w) = Ok (Some path) ->
  exists f sh rows,
    (forall f', ef = Some f' -> f' = f)
    /\ first_sheet w f sh
    /\ fs (snd (FormatGiltsCsv.format_gilts_csv ef od w)) !! path
       = Some (File (Raw (csv_text QUOTE_MINIMAL rows)))
    /\ 3 <= length rows
    /\ Forall (fun r => length r = ncols sh) rows.
Proof.
  intros H. apply format_gilts_csv_success in H.
  destruct H as (f & sh & h & Hef & Hsh & Hh & Hw & _ & Hfs & _).
  exists f, sh, (fst (written_rows sh h)).
  repeat split; try assumption.
  - destruct (written_rows_Ok _ _ Hw) as (-> & _). simpl. lia.
  - now apply written_rows_lengths.
Qed.

(** ** A call that fails *)

(** Whatever it finds, the part of a call after [os.makedirs] raises
    nothing; it writes nothing unless it has found a header row. *)
Lemma existing_view_cases (q : quoting) (shown : list nat -> list nat)
    (f dir : string) (w : world) :
  (fst (existing_view q shown f dir w) = Ok None
   /\ fs (snd (existing_view q shown f dir w)) = fs w)
  \/ (exists sh h,
        first_sheet w f sh
        /\ header_scan sh (range 0 (Nat.min 15 (nrows sh))) = Ok (Some h)
        /\ fs w !! csv_path_of w f dir <> Some Dir
        /\ (exists r, fst (existing_view q shown f dir w) = Ok r)
        /\ fs (snd (existing_view q shown f dir w))
           = <[csv_path_of w f dir :=
                 File (Raw (csv_text q (fst (written_rows sh h))))]> (fs w)).
Proof.
  unfold existing_view, convert_view. simpl fs.
  destruct (fs w !! f) as [[|[[[|sh others]]|?]]|] eqn:Ef; simpl sheets;
    cbv iota beta; try (left; split; reflexivity).
  destruct (header_scan sh _) as [[h|]|] eqn:Eh;
    try (left; split; reflexivity).
  destruct (FormatGiltsCsv.identify_section_headers sh h _ _) as [secs|];
    try (left; split; reflexivity).
  change (csv_path_of (say [ConvertingFile f] w) f dir)
    with (csv_path_of w f dir).
  destruct (fs w !! csv_path_of w f dir) as [[|?]|] eqn:Ep;
    try (left; split; reflexivity);
    (right; exists sh, h; split; [now exists others|];
     split; [assumption|]; split; [congruence|];
     destruct (snd (written_rows sh h)); split; try reflexivity;
     eexists; reflexivity).
Qed.

Lemma header_scan_without_names (sh : sheet) :
  padded sh ->
  (forall i, i < 15 -> ~ has_header_names (trimmed sh i)) ->
  header_scan sh (range 0 (Nat.min 15 (nrows sh))) = Ok None.
Proof.
  intros Hp Hn. unfold range. rewrite Nat.sub_0_r.
  destruct (header_scan_padded sh (Nat.min 15 (nrows sh)) 0 Hp) as [r Hr];
    [lia|].
  rewrite Hr. destruct r as [h|]; [|reflexivity].
  apply header_scan_Some in Hr. destruct Hr as (Hlt & Hh & _).
  exfalso. apply (Hn h); [lia | assumption].
Qed.

Lemma same_files_fs (w w1 w' : world) :
  same_files w w1 -> fs w' = fs w1 -> same_files w w'.
Proof. unfold same_files. intros H E p c. rewrite E. apply H. Qed.

(** C3. When the input holds a workbook whose first sheet has no row with
    both header names among its first 15 rows (whatever the rows from
    index 15 on hold), the conversion returns [None], the last line it
    prints says that the header row could not be found, and no file is
    made or changed. *)
Theorem no_header_in_first_15_rows (f : string) (od : option string)
    (w : world) (sh : sheet) :
  fst (makedirs (directory w od) w) = Ok tt ->
  first_sheet w f sh ->
  padded sh ->
  (forall i, i < 15 -> ~ has_header_names (trimmed sh i)) ->
  fst (FormatGiltsCsv.format_gilts_csv (Some f) od w) = Ok None
  /\ (exists n,
        printed w (snd (FormatGiltsCsv.format_gilts_csv (Some f) od w))
          [ConvertingFile f; ExcelHasSheets n;
           SheetDimensions (nrows sh) (ncols sh); CouldNotFindHeader])
  /\ same_files w (snd (FormatGiltsCsv.format_gilts_csv (Some f) od w)).
Proof.
  intros Hm (others & Hsh) Hp Hn.
  rewrite format_gilts_csv_eq. unfold call_view.
  destruct (makedirs (directory w od) w) as [o w1] eqn:Em.
  simpl in Hm. subst o.
  pose proof (makedirs_files _ _ _ _ Em) as Hf.
  destruct (makedirs_keeps _ _ _ _ Em) as (_ & _ & _ & Hc).
  unfold existing_view, convert_view. simpl fs.
  rewrite (proj2 (Hf f _) Hsh). simpl sheets. cbv iota beta.
  rewrite (header_scan_without_names sh Hp Hn).
  split; [reflexivity|]. split.
  - eexists. unfold printed. simpl. rewrite Hc, <- app_assoc. reflexivity.
  - apply (same_files_fs w w1); [assumption | reflexivity].
Qed.

(** C1, as the code has it.  A conversion that fails before the CSV file
    is opened (the input is missing, or is no workbook with a sheet, or
    has no header row in its first 15 rows, or the path of the CSV file
    cannot be opened because it is a directory) returns [None] and makes
    or changes no file. *)
Theorem early_failure_leaves_no_file (f : string) (od : option string)
    (w : world) :
  fst (makedirs (directory w od) w) = Ok tt ->
  fails_early w f (csv_path_of w f (directory w od)) ->
  fst (FormatGiltsCsv.format_gilts_csv (Some f) od w) = Ok None
  /\ same_files w (snd (FormatGiltsCsv.format_gilts_csv (Some f) od w)).
Proof.
  intros Hm He.
  rewrite format_gilts_csv_eq. unfold call_view.
  destruct (makedirs (directory w od) w) as [o w1] eqn:Em.
  simpl in Hm. subst o.
  pose proof (makedirs_files _ _ _ _ Em) as Hf.
  destruct (makedirs_keeps _ _ _ _ Em) as (Ht & _ & _ & _).
  assert (Hpath : csv_path_of w1 f (directory w od)
                  = csv_path_of w f (directory w od))
    by (unfold csv_path_of, date_of; now rewrite Ht).
  destruct (existing_view_cases QUOTE_MINIMAL (map S) f (directory w od) w1)
    as [[Hr Hs]|(sh & h & (others & Hsh) & Hh & Hd & _)].
  - split; [assumption|]. now apply (same_files_fs w w1).
  - exfalso. rewrite Hpath in Hd. destruct He as [He|He].
    + apply Hd. now apply (makedirs_dirs _ _ _ _ Em).
    + apply Hf in Hsh. rewrite Hsh in He. simpl in He.
      destruct He as (Hp & Hn).
      now rewrite (header_scan_without_names sh Hp Hn) in Hh.
Qed.

(** ** Rows that are kept and rows that are left out *)

Lemma trimmed_first (sh : sheet) (i : nat) (s : string) :
  nth_error (trimmed sh i) 0 = Some s -> s = label sh i.
Proof.
  unfold trimmed, label.
  destruct (ncols sh); [discriminate|].
  destruct (row_at sh i); [discriminate|]. simpl. congruence.
Qed.

Lemma trimmed_head (sh : sheet) (i : nat) :
  0 < ncols sh -> label sh i <> EmptyString ->
  exists rest, trimmed sh i = label sh i :: rest.
Proof.
  unfold trimmed, label. intros Hc Hl.
  destruct (ncols sh); [lia|].
  destruct (row_at sh i); [now contradiction Hl|].
  simpl. now eexists.
Qed.

Lemma group_label_not_kept (sh : sheet) (i : nat) :
  is_group_label (trimmed sh i) -> kept sh i = false.
Proof.
  intros (first & Hf & Hg). unfold kept.
  destruct (trimmed sh i) as [|s rest]; [discriminate|].
  injection Hf as ->. apply mem_In in Hg. rewrite Hg.
  apply andb_false_r.
Qed.

Lemma blank_not_kept (sh : sheet) (i : nat) :
  all_blank (trimmed sh i) -> kept sh i = false.
Proof. intros H. unfold kept. apply any_false in H. now rewrite H. Qed.

Lemma group_label_not_section_header (sh : sheet) (h i : nat) :
  is_group_label (trimmed sh i) -> section_header sh h i = false.
Proof.
  intros (first & Hf & Hg). apply trimmed_first in Hf. subst first.
  unfold section_header. apply mem_In in Hg. now rewrite Hg.
Qed.

Lemma index_linked_is_no_group_label (s : string) :
  Py.contains "Index-linked" s = true ->
  Py.mem s group_labels = false /\ Py.nonempty s = true.
Proof.
  intros H. split.
  - destruct (Py.mem s group_labels) eqn:E; [|reflexivity].
    apply mem_In in E. simpl in E.
    destruct E as [<-|[<-|[<-|[<-|[]]]]]; vm_compute in H; discriminate.
  - destruct s; [vm_compute in H; discriminate | reflexivity].
Qed.

Lemma filter_range_ascending (f : nat -> bool) (a b : nat) :
  StronglySorted lt (List.filter f (range a b)).
Proof.
  unfold range. generalize (b - a) as n. intros n. revert a.
  induction n as [|n IH]; intros a; simpl; [constructor|].
  destruct (f a); [|apply IH].
  constructor; [apply IH|].
  apply List.Forall_forall. intros x Hx.
  apply filter_In in Hx. destruct Hx as (Hx & _).
  apply in_seq in Hx. lia.
Qed.

Lemma written_rows_indices (sh : sheet) (h : nat) :
  snd (written_rows sh h) = Ok tt ->
  fst (written_rows sh h) = map (trimmed sh) (written_indices sh h).
Proof. intros H. now destruct (written_rows_Ok _ _ H) as (-> & _). Qed.

(** C5, as the code has it.  After a successful conversion the records of
    the file are the trimmed rows with the indices [written_indices], and
    the section headers printed are the indices [recorded], one up.  A row
    after the header row whose first cell trims to a group label, or whose
    cells all trim to the empty string, is not among the written rows
    unless it is the row with the fixed index 5, whatever its other cells
    hold; and a row with a group label is never recorded as a section
    header, since the group labels are tested first. *)
Theorem group_and_blank_rows_are_left_out (ef od : option string)
    (w : world) (path : string) :
  fst (FormatGiltsCsv.format_gilts_csv ef od w) = Ok (Some path) ->
  exists f sh h n,
    (forall f', ef = Some f' -> f' = f)
    /\ first_sheet w f sh
    /\ header_at sh h
    /\ fs (snd (FormatGiltsCsv.format_gilts_csv ef od w)) !! path
       = Some (File (Raw (csv_text QUOTE_MINIMAL
                            (map (trimmed sh) (written_indices sh h)))))
    /\ printed w (snd (FormatGiltsCsv.format_gilts_csv ef od w))
         [ConvertingFile f; ExcelHasSheets n;
          SheetDimensions (nrows sh) (ncols sh); FoundHeaderRow h;
          FoundSectionHeaders (map S (recorded sh h));
          SuccessfullyConverted path]
    /\ forall i, h < i ->
         (is_group_label (trimmed sh i) ->
            ~ In i (recorded sh h)
            /\ (i <> 5 -> ~ In i (written_indices sh h)))
         /\ (all_blank (trimmed sh i) ->
            i <> 5 -> ~ In i (written_indices sh h)).
Proof.
  intros H. apply format_gilts_csv_success in H.
  destruct H as (f & sh & h & Hef & Hsh & Hh & Hw & _ & Hfs & (n & Hpr) & _).
  exists f, sh, h, n.
  rewrite <- (written_rows_indices _ _ Hw).
  repeat (split; [assumption|]).
  assert (Hout : forall i, h < i -> i <> 5 -> kept sh i = false ->
                           ~ In i (written_indices sh h)).
  { intros i Hi H5 Hk [<-|[<-|[<-|Hin]]]; try lia.
    apply filter_In in Hin. destruct Hin as (_ & Hin). congruence. }
  intros i Hi. split.
  - intros Hg. split.
    + intros Hin. apply filter_In in Hin. destruct Hin as (_ & Hin).
      now rewrite (group_label_not_section_header sh h i Hg) in Hin.
    + intros H5. apply Hout; try assumption.
      now apply group_label_not_kept.
  - intros Hb H5. apply Hout; try assumption. now apply blank_not_kept.
Qed.

(** C6, as the code has it.  After a successful conversion, every row
    with an index above that of the header row plus one whose first cell
    is no group label and is not blank while its second cell is empty (an
    empty string or a zero), or whose first cell contains
    ["Index-linked"], is recorded as a section header and is among the
    written rows; the recorded indices and the indices of the data rows
    ascend; and a record is the trimmed row whether or not the row was
    recorded as a section header. *)
Theorem section_headers_are_kept_and_recorded (ef od : option string)
    (w : world) (path : string) :
  fst (FormatGiltsCsv.format_gilts_csv ef od w) = Ok (Some path) ->
  exists f sh h n,
    (forall f', ef = Some f' -> f' = f)
    /\ first_sheet w f sh
    /\ header_at sh h
    /\ fs (snd (FormatGiltsCsv.format_gilts_csv ef od w)) !! path
       = Some (File (Raw (csv_text QUOTE_MINIMAL
                            (map (trimmed sh) (written_indices sh h)))))
    /\ printed w (snd (FormatGiltsCsv.format_gilts_csv ef od w))
         [ConvertingFile f; ExcelHasSheets n;
          SheetDimensions (nrows sh) (ncols sh); FoundHeaderRow h;
          FoundSectionHeaders (map S (recorded sh h));
          SuccessfullyConverted path]
    /\ StronglySorted lt (recorded sh h)
    /\ StronglySorted lt (skipn 3 (written_indices sh h))
    /\ forall i, h + 1 < i -> i < nrows sh ->
         (~ In (label sh i) group_labels
          /\ label sh i <> EmptyString
          /\ truthy (second_cell sh i) = false)
         \/ Py.contains "Index-linked" (label sh i) = true ->
         In i (recorded sh h) /\ In i (skipn 3 (written_indices sh h)).
Proof.
  intros H. apply format_gilts_csv_success in H.
  destruct H as (f & sh & h & Hef & Hsh & Hh & Hw & _ & Hfs & (n & Hpr) & _).
  exists f, sh, h, n.
  rewrite <- (written_rows_indices _ _ Hw).
  repeat (split; [assumption|]).
  split; [apply filter_range_ascending|].
  split; [apply filter_range_ascending|].
  intros i Hi Hn Hc.
  assert (Hcols : 0 < ncols sh)
    by (destruct Hh as (_ & Hh & _); now apply header_names_need_columns in Hh).
  assert (Hrange : In i (range (h + 1) (nrows sh)))
    by (unfold range; apply in_seq; lia).
  assert (Hfacts : Py.mem (label sh i) group_labels = false
                   /\ Py.nonempty (label sh i) = true
                   /\ section_header sh h i = true).
  { assert (Hlt : (h + 1 <? i) = true) by (apply Nat.ltb_lt; lia).
    unfold section_header. rewrite Hlt.
    destruct Hc as [(Hg & Hl & Ht)|Hc].
    - assert (Hm : Py.mem (label sh i) group_labels = false).
      { destruct (Py.mem _ _) eqn:E; [|reflexivity].
        apply mem_In in E. contradiction. }
      assert (Hne : Py.nonempty (label sh i) = true).
      { destruct (Py.nonempty _) eqn:E; [reflexivity|].
        apply nonempty_false in E. contradiction. }
      rewrite Hm, Hne, Ht. repeat split; reflexivity.
    - destruct (index_linked_is_no_group_label _ Hc) as (Hm & Hne).
      rewrite Hm, Hne, Hc. repeat split.
      simpl. now rewrite orb_true_r. }
  destruct Hfacts as (Hm & Hne & Hsec).
  split.
  - apply filter_In. now split.
  - simpl. apply filter_In. split; [assumption|].
    destruct (trimmed_head sh i Hcols) as (rest & Ht).
    { intros E. rewrite E in Hne. discriminate. }
    unfold kept. rewrite Ht, Hm. unfold Py.any. simpl.
    now rewrite Hne.
Qed.

(** ** The same conversion again *)

Lemma string_length_append (a b : string) :
  String.length (a +:+ b) = String.length a + String.length b.
Proof.
  induction a as [|c a IH]; [reflexivity|].
  change (S (String.length (a +:+ b)) = S (String.length a + String.length b)).
  now rewrite IH.
Qed.

Lemma join_longer (a b : string) :
  Py.starts_with slash b = false -> b <> EmptyString ->
  String.length a < String.length (join a b).
Proof.
  intros Hs Hb. unfold join. rewrite Hs.
  assert (0 < String.length b) by (destruct b; [contradiction | simpl; lia]).
  destruct (negb (Py.nonempty a) || Py.ends_with slash a);
    rewrite string_length_append; simpl; lia.
Qed.

Lemma csv_path_is_not_the_directory (w : world) (f dir : string) :
  csv_path_of w f dir <> dir.
Proof.
  intros E. pose proof (join_longer dir
    ("gilts_in_issue_" +:+ date_of w f +:+ ".csv") eq_refl) as H.
  fold (csv_path_of w f dir) in H. rewrite E in H.
  assert (String.length dir < String.length dir); [|lia].
  apply H. discriminate.
Qed.

Lemma existing_view_forward (q : quoting) (shown : list nat -> list nat)
    (f dir : string) (w : world) (sh : sheet) (h : nat) (secs : list nat) :
  first_sheet w f sh ->
  header_scan sh (range 0 (Nat.min 15 (nrows sh))) = Ok (Some h) ->
  FormatGiltsCsv.identify_section_headers sh h
    (range (h + 1) (nrows sh)) [] = Ok secs ->
  snd (written_rows sh h) = Ok tt ->
  fs w !! csv_path_of w f dir <> Some Dir ->
  fst (existing_view q shown f dir w) = Ok (Some (csv_path_of w f dir))
  /\ fs (snd (existing_view q shown f dir w))
     = <[csv_path_of w f dir :=
           File (Raw (csv_text q (fst (written_rows sh h))))]> (fs w).
Proof.
  intros (others & Hsh) Hh Hi Hw Hd.
  unfold existing_view, convert_view. cbn [fs say set_console]. rewrite Hsh.
  cbn [sheets]. rewrite !Hh, !Hi, !Hw.
  change (csv_path_of (say [ConvertingFile f] w) f dir)
    with (csv_path_of w f dir).
  destruct (fs w !! csv_path_of w f dir) as [[|?]|];
    [contradiction| |]; split; reflexivity.
Qed.

Lemma date_of_agrees (w1 w2 : world) (f : string) :
  (exists d, strptime (date_str f) = Ok d) \/ today w1 = today w2 ->
  date_of w1 f = date_of w2 f.
Proof.
  unfold date_of. intros [(d & ->) | ->]; reflexivity.
Qed.

(** C7. The conversion depends on the clock and on the files around only
    through failures: when the conversion of a file has succeeded in one
    world, it succeeds in every world that holds the same file under the
    same name and can take the output, gives the same path and leaves the
    same bytes there, provided the file name holds a date that
    [strptime] reads, or else that the two worlds have the same date. *)
Theorem conversion_is_deterministic (f : string) (od : option string)
    (w1 w2 : world) (p : string) :
  fs w1 !! f = fs w2 !! f ->
  directory w1 od = directory w2 od ->
  (exists d, strptime (date_str f) = Ok d) \/ today w1 = today w2 ->
  fst (FormatGiltsCsv.format_gilts_csv (Some f) od w1) = Ok (Some p) ->
  fst (makedirs (directory w2 od) w2) = Ok tt ->
  fs w2 !! p <> Some Dir ->
  fst (FormatGiltsCsv.format_gilts_csv (Some f) od w2) = Ok (Some p)
  /\ fs (snd (FormatGiltsCsv.format_gilts_csv (Some f) od w2)) !! p
     = fs (snd (FormatGiltsCsv.format_gilts_csv (Some f) od w1)) !! p
  /\ exists text,
       fs (snd (FormatGiltsCsv.format_gilts_csv (Some f) od w2)) !! p
       = Some (File (Raw text)).
Proof.
  intros Hfile Hdir Hdate H1 Hm Hd.
  rewrite format_gilts_csv_eq in H1. apply call_view_success in H1.
  destruct H1 as (f0 & sh & h & w1' & n & Em1 & Hef & (others & Hsh) & Hh
                  & Hi & Hw & Hp & Hs).
  rewrite <- (Hef f eq_refl) in *. clear Hef.
  rewrite !format_gilts_csv_eq. rewrite Hs.
  unfold call_view.
  destruct (makedirs (directory w2 od) w2) as [o w2'] eqn:Em2.
  simpl in Hm. subst o.
  destruct (makedirs_keeps _ _ _ _ Em2) as (Ht & _ & _ & _).
  assert (Hpath : csv_path_of w2' f (directory w2 od) = p).
  { rewrite Hp, <- Hdir. unfold csv_path_of.
    rewrite (date_of_agrees w1 w2 f Hdate).
    unfold date_of. now rewrite Ht. }
  destruct (existing_view_forward QUOTE_MINIMAL (map S) f (directory w2 od)
              w2' sh h (recorded sh h)) as (Hr & Hfs); try assumption.
  - exists others. apply (makedirs_files _ _ _ _ Em2). congruence.
  - rewrite Hpath. intros Hdir'.
    unfold makedirs in Em2.
    destruct (fs w2 !! directory w2 od) as [[|?]|] eqn:E;
      [| |destruct (Py.nonempty (directory w2 od))];
      try discriminate Em2; injection Em2 as <-; try contradiction.
    simpl in Hdir'. rewrite lookup_insert_ne in Hdir'; [contradiction|].
    rewrite <- Hpath. intros E'. symmetry in E'.
    now apply csv_path_is_not_the_directory in E'.
  - rewrite Hr, Hfs, Hpath. simpl.
    rewrite !lookup_insert_eq. repeat split. now eexists.
Qed.

(** ** The two files side by side *)

Lemma map_pred_S (l : list nat) : map Nat.pred (map S l) = l.
Proof. induction l as [|x l IH]; simpl; [reflexivity | now rewrite IH]. Qed.

Ltac related_branch :=
  split; [reflexivity|];
  split;
  [ eexists; split;
    [ simpl; rewrite <- ?app_assoc; reflexivity
    | simpl; rewrite <- ?app_assoc, ?map_pred_S; reflexivity ]
  | first [ left; reflexivity
          | right; eexists; eexists; split; reflexivity ] ].

Lemma existing_view_related (f dir : string) (w : world) :
  fst (existing_view QUOTE_MINIMAL (map S) f dir w)
  = fst (existing_view QUOTE_ALL (fun l => l) f dir w)
  /\ (exists ms,
        console (snd (existing_view QUOTE_MINIMAL (map S) f dir w))
        = console w ++ ms
        /\ console (snd (existing_view QUOTE_ALL (fun l => l) f dir w))
           = console w ++ map unshifted ms)
  /\ (fs (snd (existing_view QUOTE_MINIMAL (map S) f dir w))
      = fs (snd (existing_view QUOTE_ALL (fun l => l) f dir w))
      \/ exists path rows,
           fs (snd (existing_view QUOTE_MINIMAL (map S) f dir w))
           = <[path := File (Raw (csv_text QUOTE_MINIMAL rows))]> (fs w)
           /\ fs (snd (existing_view QUOTE_ALL (fun l => l) f dir w))
              = <[path := File (Raw (csv_text QUOTE_ALL rows))]> (fs w)).
Proof.
  unfold existing_view, convert_view. cbn [fs say set_console].
  destruct (fs w !! f) as [[|[[[|sh others]]|?]]|]; cbn [sheets];
    try related_branch.
  destruct (header_scan sh _) as [[h|]|]; try related_branch.
  destruct (FormatGiltsCsv.identify_section_headers sh h _ _) as [secs|];
    try related_branch.
  change (csv_path_of (say [ConvertingFile f] w) f dir)
    with (csv_path_of w f dir).
  destruct (fs w !! csv_path_of w f dir) as [[|?]|]; try related_branch;
    destruct (snd (written_rows sh h)); related_branch.
Qed.

(** C8. On the same arguments in the same world the two files return the
    same value, print the same lines but for the section headers, which
    [src/format_gilts_csv.py] prints one up, and leave the same files but
    for the CSV file: it holds the same records in both, written with
    minimal quoting by the one and with every field quoted by the other.
    ([src/download_and_format_gilts.py] has the name [glob] only when it
    runs as the main script, which the search for the latest download
    needs.) *)
Theorem variants_differ_in_quoting_only (glob_bound : bool)
    (ef od : option string) (w : world) :
  (ef = None -> glob_bound = true) ->
  fst (FormatGiltsCsv.format_gilts_csv ef od w)
  = fst (DownloadAndFormatGilts.format_gilts_csv glob_bound ef od w)
  /\ (exists ms,
        printed w (snd (FormatGiltsCsv.format_gilts_csv ef od w)) ms
        /\ printed w
             (snd (DownloadAndFormatGilts.format_gilts_csv glob_bound ef od w))
             (map unshifted ms))
  /\ (fs (snd (FormatGiltsCsv.format_gilts_csv ef od w))
      = fs (snd (DownloadAndFormatGilts.format_gilts_csv glob_bound ef od w))
      \/ exists base path rows,
           fs (snd (FormatGiltsCsv.format_gilts_csv ef od w))
           = <[path := File (Raw (csv_text QUOTE_MINIMAL rows))]> base
           /\ fs (snd (DownloadAndFormatGilts.format_gilts_csv
                         glob_bound ef od w))
              = <[path := File (Raw (csv_text QUOTE_ALL rows))]> base).
Proof.
  intros Hg. rewrite format_gilts_csv_eq, format_gilts_csv_all_eq.
  unfold call_view, printed.
  destruct (makedirs (directory w od) w) as [o w1] eqn:Em.
  destruct (makedirs_keeps _ _ _ _ Em) as (_ & _ & _ & Hc).
  destruct o as [[]|e].
  2:{ split; [reflexivity|]. split; [|now left].
      exists []. simpl. now rewrite !app_nil_r. }
  assert (Hgo : forall f,
    fst (existing_view QUOTE_MINIMAL (map S) f (directory w od) w1)
    = fst (existing_view QUOTE_ALL (fun l => l) f (directory w od) w1)
    /\ (exists ms,
          console (snd (existing_view QUOTE_MINIMAL (map S) f
                          (directory w od) w1)) = console w ++ ms
          /\ console (snd (existing_view QUOTE_ALL (fun l => l) f
                             (directory w od) w1))
             = console w ++ map unshifted ms)
    /\ (fs (snd (existing_view QUOTE_MINIMAL (map S) f (directory w od) w1))
        = fs (snd (existing_view QUOTE_ALL (fun l => l) f (directory w od) w1))
        \/ exists base path rows,
             fs (snd (existing_view QUOTE_MINIMAL (map S) f
                        (directory w od) w1))
             = <[path := File (Raw (csv_text QUOTE_MINIMAL rows))]> base
             /\ fs (snd (existing_view QUOTE_ALL (fun l => l) f
                           (directory w od) w1))
                = <[path := File (Raw (csv_text QUOTE_ALL rows))]> base)).
  { intros f.
    destruct (existing_view_related f (directory w od) w1)
      as (Hr & (ms & H1 & H2) & Hfs).
    rewrite Hc in H1, H2.
    split; [assumption|]. split; [now exists ms|].
    destruct Hfs as [Hfs|(path & rows & Hfs)]; [now left | right].
    now exists (fs w1), path, rows. }
  destruct ef as [f|]; [apply Hgo|].
  rewrite (Hg eq_refl).
  destruct (chosen w1 None) as [f|]; [apply Hgo|].
  split; [reflexivity|]. split; [|now left].
  exists [NoExcelFiles]. simpl. now rewrite Hc.
Qed.

(** ** Exceptions that reach the caller *)

(** Only [os.makedirs], which stands before the [try] statement, can make
    a call raise. *)
Lemma raises_only_from_makedirs (ef od : option string) (w : world) (e : exn) :
  fst (FormatGiltsCsv.format_gilts_csv ef od w) = Raise e ->
  fst (makedirs (directory w od) w) = Raise e.
Proof.
  rewrite format_gilts_csv_eq. unfold call_view.
  destruct (makedirs (directory w od) w) as [[[]|e'] w1];
    [|simpl; congruence].
  assert (Hgo : forall f,
    fst (existing_view QUOTE_MINIMAL (map S) f (directory w od) w1)
    <> Raise e).
  { intros f.
    destruct (existing_view_cases QUOTE_MINIMAL (map S) f (directory w od) w1)
      as [[-> _]|(sh & h & _ & _ & _ & (r & ->) & _)]; discriminate. }
  destruct ef as [f|]; [intros H; now apply Hgo in H|].
  destruct (chosen w1 None) as [f|]; [intros H; now apply Hgo in H|].
  discriminate.
Qed.

(** C9, at an input where it fails: the name of the output directory is
    that of a file, [os.makedirs] raises [FileExistsError] before the
    [try] statement is entered, and the exception reaches the caller;
    nothing is printed. *)
Theorem uncreatable_directory_raises :
  FormatGiltsCsv.format_gilts_csv (Some gilts_xls) (Some "out")
    (world_with_file_at "out")
  = (Raise FileExistsError, world_with_file_at "out").
Proof. reflexivity. Qed.

(** ** The claims at the sample inputs *)

Lemma world_with_first_sheet (sh : sheet) :
  first_sheet (world_with sh) gilts_xls sh.
Proof. exists []. apply lookup_singleton_eq. Qed.

Lemma gilts_sheet_padded : padded gilts_sheet.
Proof. repeat constructor. Qed.

Lemma late_header_sheet_padded : padded late_header_sheet.
Proof. repeat constructor. Qed.

Lemma late_header_sheet_first_15 (i : nat) :
  i < 15 -> ~ has_header_names (trimmed late_header_sheet i).
Proof.
  intros Hi [H _].
  do 15 (destruct i as [|i];
         [vm_compute in H; destruct H as [H|[H|[]]]; discriminate H|]).
  lia.
Qed.

(** The header loop on [gilts_sheet] finds row 8. *)
Lemma header_locator_first_match_witness :
  exists r,
    fst (FormatGiltsCsv.find_header_row gilts_sheet
           (range 0 (Nat.min 15 (nrows gilts_sheet)))
           (world_with gilts_sheet)) = Ok r
    /\ (r = Some 8 <-> header_at gilts_sheet 8).
Proof.
  destruct (header_locator_first_match gilts_sheet (world_with gilts_sheet)
              gilts_sheet_padded) as (r & Hr & Hs & _).
  exists r. split; [exact Hr | exact (Hs 8)].
Defined.

(** [late_header_sheet] has the header names in row 20 only: the
    conversion fails and makes no file. *)
Lemma no_header_in_first_15_rows_witness :
  has_header_names (trimmed late_header_sheet 20)
  /\ fst (FormatGiltsCsv.format_gilts_csv (Some gilts_xls) (Some "out")
            (world_with late_header_sheet)) = Ok None
  /\ same_files (world_with late_header_sheet)
       (snd (FormatGiltsCsv.format_gilts_csv (Some gilts_xls) (Some "out")
               (world_with late_header_sheet))).
Proof.
  split; [split; vm_compute; tauto|].
  destruct (no_header_in_first_15_rows gilts_xls (Some "out")
              (world_with late_header_sheet) late_header_sheet eq_refl
              (world_with_first_sheet late_header_sheet)
              late_header_sheet_padded late_header_sheet_first_15)
    as (H1 & _ & H3).
  split; [exact H1 | exact H3].
Defined.

(** C1 as it is written fails on [short_sheet]: the header row is row 0,
    the file is opened and row 0 written, then row 5 is read, which is not
    there; the call returns [None] and leaves a file of one record where
    there was none. *)
Lemma partial_file_after_failure :
  fst (FormatGiltsCsv.format_gilts_csv (Some gilts_xls) (Some "out")
         (world_with short_sheet)) = Ok None
  /\ fs (world_with short_sheet) !! gilts_csv = None
  /\ fs (snd (FormatGiltsCsv.format_gilts_csv (Some gilts_xls) (Some "out")
                (world_with short_sheet))) !! gilts_csv
     = Some (File (Raw ("ISIN Code,Redemption Date" +:+ lineterminator))).
Proof. repeat split; vm_compute; reflexivity. Qed.

(** A file that is not there: the call fails and makes no file. *)
Lemma early_failure_leaves_no_file_witness :
  fst (FormatGiltsCsv.format_gilts_csv (Some "missing.xls") (Some "out")
         (world_with gilts_sheet)) = Ok None
  /\ same_files (world_with gilts_sheet)
       (snd (FormatGiltsCsv.format_gilts_csv (Some "missing.xls")
               (Some "out") (world_with gilts_sheet))).
Proof.
  apply (early_failure_leaves_no_file "missing.xls" (Some "out")
           (world_with gilts_sheet)).
  - reflexivity.
  - right. vm_compute. exact I.
Defined.

(** The conversion of [gilts_sheet]: rows 0, 5 and 8 come first. *)
Lemma fixed_rows_lead_the_output_witness :
  exists rest,
    fs (snd (FormatGiltsCsv.format_gilts_csv (Some gilts_xls) (Some "out")
               (world_with gilts_sheet))) !! gilts_csv
    = Some (File (Raw (csv_text QUOTE_MINIMAL
         (trimmed gilts_sheet 0 :: trimmed gilts_sheet 5
          :: trimmed gilts_sheet 8 :: rest)))).
Proof.
  destruct (fixed_rows_lead_the_output (Some gilts_xls) (Some "out")
              (world_with gilts_sheet) gilts_csv eq_refl)
    as (f & sh & h & rest & Hf & (others & Hsh) & Hh & _ & Hfs).
  assert (E : sh = gilts_sheet).
  { rewrite <- (Hf gilts_xls eq_refl) in Hsh.
    unfold world_with in Hsh. simpl in Hsh.
    rewrite lookup_singleton_eq in Hsh. congruence. }
  subst sh.
  assert (E : h = 8).
  { apply (header_at_unique gilts_sheet); [exact Hh|].
    split; [vm_compute; lia|]. split; [split; vm_compute; tauto|].
    intros k Hk [H _].
    do 8 (destruct k as [|k];
          [vm_compute in H; repeat destruct H as [H|H]; discriminate H
          || contradiction|]).
    lia. }
  subst h. exists rest. exact Hfs.
Defined.

(** The conversion of [gilts_sheet]: every record has four fields. *)
Lemma output_is_rectangular_witness :
  exists sh rows,
    first_sheet (world_with gilts_sheet) gilts_xls sh
    /\ fs (snd (FormatGiltsCsv.format_gilts_csv (Some gilts_xls) (Some "out")
                  (world_with gilts_sheet))) !! gilts_csv
       = Some (File (Raw (csv_text QUOTE_MINIMAL rows)))
    /\ Forall (fun r => length r = ncols sh) rows.
Proof.
  destruct (output_is_rectangular (Some gilts_xls) (Some "out")
              (world_with gilts_sheet) gilts_csv eq_refl)
    as (f & sh & rows & Hf & Hsh & Hfs & _ & Hall).
  rewrite <- (Hf gilts_xls eq_refl) in Hsh.
  exists sh, rows. split; [exact Hsh | split; [exact Hfs | exact Hall]].
Defined.

(** C5 as it is written fails on [early_header_sheet]: the header row is
    row 0, row 5 comes after it and its first cell is ["Short"], and yet
    it is the second record of the file, its other cell with it. *)
Lemma group_label_in_row_5_is_written :
  header_at early_header_sheet 0
  /\ is_group_label (trimmed early_header_sheet 5)
  /\ fst (FormatGiltsCsv.format_gilts_csv (Some gilts_xls) (Some "out")
            (world_with early_header_sheet)) = Ok (Some gilts_csv)
  /\ fs (snd (FormatGiltsCsv.format_gilts_csv (Some gilts_xls) (Some "out")
                (world_with early_header_sheet))) !! gilts_csv
     = Some (File (Raw (csv_text QUOTE_MINIMAL
          [["ISIN Code"; "Redemption Date"];
           ["Short"; "x"];
           ["ISIN Code"; "Redemption Date"];
           ["GB00ABC123"; "2030-01-01"];
           ["GB00ABC456"; "2031-01-01"];
           ["GB00ABC789"; "2032-01-01"];
           ["GB00DEF123"; "2033-01-01"];
           ["GB00DEF456"; "2034-01-01"]]))).
Proof.
  split; [|split; [|split]].
  - split; [vm_compute; lia|]. split; [split; vm_compute; tauto|].
    intros k Hk. lia.
  - exists "Short". split; [reflexivity | vm_compute; tauto].
  - reflexivity.
  - vm_compute. reflexivity.
Qed.

(** The conversion of [gilts_sheet]: the blank row 9 and the row 10 with
    the label ["Short"] are not written, and row 10 is not recorded. *)
Lemma group_and_blank_rows_are_left_out_witness :
  exists sh h,
    first_sheet (world_with gilts_sheet) gilts_xls sh
    /\ header_at sh h
    /\ fs (snd (FormatGiltsCsv.format_gilts_csv (Some gilts_xls) (Some "out")
                  (world_with gilts_sheet))) !! gilts_csv
       = Some (File (Raw (csv_text QUOTE_MINIMAL
                            (map (trimmed sh) (written_indices sh h)))))
    /\ forall i, h < i ->
         (is_group_label (trimmed sh i) ->
            ~ In i (recorded sh h)
            /\ (i <> 5 -> ~ In i (written_indices sh h)))
         /\ (all_blank (trimmed sh i) ->
            i <> 5 -> ~ In i (written_indices sh h)).
Proof.
  destruct (group_and_blank_rows_are_left_out (Some gilts_xls) (Some "out")
              (world_with gilts_sheet) gilts_csv eq_refl)
    as (f & sh & h & n & Hf & Hsh & Hh & Hfs & _ & Hrows).
  rewrite <- (Hf gilts_xls eq_refl) in Hsh.
  exists sh, h.
  split; [exact Hsh | split; [exact Hh | split; [exact Hfs | exact Hrows]]].
Defined.

(** C6 as it is written fails on [gilts_sheet]: the header row is row 8,
    row 10 has an index above 9, its first cell ["Short"] is not blank and
    its second cell is, and yet it is neither recorded as a section
    header (only row 12 is, printed as 13) nor written. *)
Lemma group_label_row_is_neither_recorded_nor_written :
  header_at gilts_sheet 8
  /\ label gilts_sheet 10 = "Short"
  /\ second_cell gilts_sheet 10 = Text ""
  /\ FormatGiltsCsv.format_gilts_csv (Some gilts_xls) (Some "out")
       (world_with gilts_sheet)
     = (Ok (Some gilts_csv),
        say [ConvertingFile gilts_xls; ExcelHasSheets 1;
             SheetDimensions 14 4; FoundHeaderRow 8;
             FoundSectionHeaders [13];
             SuccessfullyConverted gilts_csv]
          (holding gilts_csv
             (csv_text QUOTE_MINIMAL
                [["Gilts in Issue"; ""; ""; ""];
                 ["Total"; ""; ""; "1000.5"];
                 ["Gilt Name"; "ISIN Code"; "Redemption Date"; "Amount"];
                 ["UK Treasury 2030"; "GB00ABC123"; "2030-01-01"; "1.5"];
                 ["Index-linked Gilts"; ""; ""; ""];
                 ["UK IL 2035"; "GB00XYZ789"; "2035-01-01"; "2.0"]])
             (set_fs (<["out" := Dir]> (fs (world_with gilts_sheet)))
                (world_with gilts_sheet)))).
Proof.
  split; [|split; [|split]]; try reflexivity.
  split; [vm_compute; lia|]. split; [split; vm_compute; tauto|].
  intros k Hk [H _].
  do 8 (destruct k as [|k];
        [vm_compute in H; repeat destruct H as [H|H]; discriminate H
        || contradiction|]).
  lia.
Qed.

(** The conversion of [gilts_sheet]: row 12, the heading of the
    index-linked gilts, is recorded and written. *)
Lemma section_headers_are_kept_and_recorded_witness :
  exists sh h,
    first_sheet (world_with gilts_sheet) gilts_xls sh
    /\ header_at sh h
    /\ StronglySorted lt (recorded sh h)
    /\ StronglySorted lt (skipn 3 (written_indices sh h))
    /\ forall i, h + 1 < i -> i < nrows sh ->
         (~ In (label sh i) group_labels
          /\ label sh i <> EmptyString
          /\ truthy (second_cell sh i) = false)
         \/ Py.contains "Index-linked" (label sh i) = true ->
         In i (recorded sh h) /\ In i (skipn 3 (written_indices sh h)).
Proof.
  destruct (section_headers_are_kept_and_recorded (Some gilts_xls)
              (Some "out") (world_with gilts_sheet) gilts_csv eq_refl)
    as (f & sh & h & n & Hf & Hsh & Hh & _ & _ & Hs1 & Hs2 & Hrows).
  rewrite <- (Hf gilts_xls eq_refl) in Hsh.
  exists sh, h.
  split; [exact Hsh|]. split; [exact Hh|]. split; [exact Hs1|].
  split; [exact Hs2 | exact Hrows].
Defined.

(** [later_world] has another date and holds the CSV file already: the
    conversion of the same spreadsheet gives the same bytes again. *)
Lemma conversion_is_deterministic_witness :
  today later_world <> today (world_with gilts_sheet)
  /\ fst (FormatGiltsCsv.format_gilts_csv (Some gilts_xls) (Some "out")
            later_world) = Ok (Some gilts_csv)
  /\ fs (snd (FormatGiltsCsv.format_gilts_csv (Some gilts_xls) (Some "out")
                later_world)) !! gilts_csv
     = fs (snd (FormatGiltsCsv.format_gilts_csv (Some gilts_xls) (Some "out")
                  (world_with gilts_sheet))) !! gilts_csv.
Proof.
  split; [discriminate|].
  destruct (conversion_is_deterministic gilts_xls (Some "out")
              (world_with gilts_sheet) later_world gilts_csv)
    as (H1 & H2 & _).
  - vm_compute. reflexivity.
  - reflexivity.
  - left. eexists. vm_compute. reflexivity.
  - reflexivity.
  - vm_compute. reflexivity.
  - vm_compute. discriminate.
  - split; [exact H1 | exact H2].
Defined.

(** The two files on [gilts_sheet], the second not run as the main
    script. *)
Lemma variants_differ_in_quoting_only_witness :
  fst (FormatGiltsCsv.format_gilts_csv (Some gilts_xls) (Some "out")
         (world_with gilts_sheet))
  = fst (DownloadAndFormatGilts.format_gilts_csv false (Some gilts_xls)
           (Some "out") (world_with gilts_sheet))
  /\ exists base path rows,
       fs (snd (FormatGiltsCsv.format_gilts_csv (Some gilts_xls) (Some "out")
                  (world_with gilts_sheet)))
       = <[path := File (Raw (csv_text QUOTE_MINIMAL rows))]> base
       /\ fs (snd (DownloadAndFormatGilts.format_gilts_csv false
                     (Some gilts_xls) (Some "out") (world_with gilts_sheet)))
          = <[path := File (Raw (csv_text QUOTE_ALL rows))]> base.
Proof.
  destruct (variants_differ_in_quoting_only false (Some gilts_xls)
              (Some "out") (world_with gilts_sheet))
    as (H1 & _ & [H3|H3]).
  - discriminate.
  - exfalso. apply (f_equal (fun m => m !! gilts_csv)) in H3.
    vm_compute in H3. discriminate H3.
  - split; [exact H1 | exact H3].
Defined.

(** ** Further properties of [FormatGiltsCsv.format_gilts_csv] *)

Lemma makedirs_makes (p : string) (w w1 : world) :
  makedirs p w = (Ok tt, w1) -> fs w1 !! p = Some Dir.
Proof.
  unfold makedirs.
  destruct (fs w !! p) as [[|?]|] eqn:E; [| |destruct (Py.nonempty p)];
    try discriminate; intros [= <-]; [assumption|].
  simpl. apply lookup_insert_eq.
Qed.

Lemma csv_path_after_makedirs (p : string) (w w1 : world) (o : outcome unit)
    (f dir : string) :
  makedirs p w = (o, w1) -> csv_path_of w1 f dir = csv_path_of w f dir.
Proof.
  intros Em. destruct (makedirs_keeps _ _ _ _ Em) as (Ht & _).
  unfold csv_path_of, date_of. now rewrite Ht.
Qed.

Lemma kept_iff (sh : sheet) (i : nat) :
  kept sh i = true
  <-> ~ all_blank (trimmed sh i) /\ ~ is_group_label (trimmed sh i).
Proof.
  unfold kept. rewrite andb_true_iff, negb_true_iff. split.
  - intros (Ha & Hg). split.
    + intros Hb. apply any_false in Hb. congruence.
    + intros (first & Hf & Hin). destruct (trimmed sh i) as [|s rest];
        [discriminate|].
      injection Hf as ->. apply mem_In in Hin. congruence.
  - intros (Hb & Hg). split.
    + destruct (Py.any (trimmed sh i)) eqn:E; [reflexivity|].
      apply any_false in E. contradiction.
    + destruct (trimmed sh i) as [|s rest]; [reflexivity|].
      destruct (Py.mem s group_labels) eqn:E; [|reflexivity].
      exfalso. apply Hg. exists s. split; [reflexivity | now apply mem_In].
Qed.

Lemma section_header_iff (sh : sheet) (h i : nat) :
  section_header sh h i = true
  <-> h + 1 < i
      /\ ~ In (label sh i) group_labels
      /\ ((label sh i <> EmptyString /\ truthy (second_cell sh i) = false)
          \/ Py.contains "Index-linked" (label sh i) = true).
Proof.
  unfold section_header.
  rewrite andb_true_iff, negb_true_iff, orb_true_iff, !andb_true_iff,
    negb_true_iff, Nat.ltb_lt.
  split.
  - intros (Hg & Hc). split; [|split].
    + destruct Hc as [(_ & Hlt)|(_ & Hlt)]; exact Hlt.
    + intros Hin. apply mem_In in Hin. congruence.
    + destruct Hc as [((Hne & Ht) & _)|(Hc & _)]; [left | now right].
      split; [|assumption]. intros E. rewrite E in Hne. discriminate.
  - intros (Hlt & Hg & Hc). split.
    + destruct (Py.mem (label sh i) group_labels) eqn:E; [|reflexivity].
      apply mem_In in E. contradiction.
    + destruct Hc as [(Hne & Ht)|Hc]; [left | now right].
      repeat split; try assumption.
      destruct (label sh i); [contradiction | reflexivity].
Qed.


(** X2. After a successful conversion the records after the third are the
    trimmed rows that come after the header row, have a cell that is not
    blank and have no group label in the first cell: these rows and no
    others, in the order of the sheet. *)
Theorem data_rows_are_the_rows_kept (ef od : option string) (w : world)
    (path : string) :
  fst (FormatGiltsCsv.format_gilts_csv ef od w) = Ok (Some path) ->
  exists f sh h indices,
    (forall f', ef = Some f' -> f' = f)
    /\ first_sheet w f sh
    /\ header_at sh h
    /\ fs (snd (FormatGiltsCsv.format_gilts_csv ef od w)) !! path
       = Some (File (Raw (csv_text QUOTE_MINIMAL
            (trimmed sh 0 :: trimmed sh 5 :: trimmed sh h
             :: map (trimmed sh) indices))))
    /\ StronglySorted lt indices
    /\ forall i, In i indices <-> data_row sh h i.
Proof.
  intros H. apply format_gilts_csv_success in H.
  destruct H as (f & sh & h & Hef & Hsh & Hh & Hw & _ & Hfs & _).
  destruct (written_rows_Ok _ _ Hw) as (Hrows & _).
  exists f, sh, h, (List.filter (kept sh) (range (h + 1) (nrows sh))).
  rewrite <- Hrows.
  repeat (split; [assumption|]).
  split; [apply filter_range_ascending|].
  intros i. rewrite filter_In, kept_iff. unfold range, data_row.
  rewrite in_seq. split.
  - intros (Hr & Hk). split; [lia | exact Hk].
  - intros (Hr & Hk). split; [lia | exact Hk].
Qed.

(** X3. After a successful conversion the section headers printed are, one
    up, the indices of the rows above the header row plus one whose first
    cell is no group label and either is not blank while the second cell
    is empty, or contains ["Index-linked"]: these and no others; the row
    right after the header row is never among them. *)
Theorem section_headers_printed (ef od : option string) (w : world)
    (path : string) :
  fst (FormatGiltsCsv.format_gilts_csv ef od w) = Ok (Some path) ->
  exists f sh h n secs,
    (forall f', ef = Some f' -> f' = f)
    /\ first_sheet w f sh
    /\ header_at sh h
    /\ printed w (snd (FormatGiltsCsv.format_gilts_csv ef od w))
         [ConvertingFile f; ExcelHasSheets n;
          SheetDimensions (nrows sh) (ncols sh); FoundHeaderRow h;
          FoundSectionHeaders (map S secs);
          SuccessfullyConverted path]
    /\ ~ In (h + 1) secs
    /\ forall i,
         In i secs
         <-> h + 1 < i < nrows sh
             /\ ~ In (label sh i) group_labels
             /\ ((label sh i <> EmptyString
                  /\ truthy (second_cell sh i) = false)
                 \/ Py.contains "Index-linked" (label sh i) = true).
Proof.
  intros H. apply format_gilts_csv_success in H.
  destruct H as (f & sh & h & Hef & Hsh & Hh & _ & _ & _ & (n & Hpr) & _).
  exists f, sh, h, n, (recorded sh h).
  repeat (split; [assumption|]).
  assert (Hiff : forall i,
    In i (recorded sh h)
    <-> h + 1 < i < nrows sh
        /\ ~ In (label sh i) group_labels
        /\ ((label sh i <> EmptyString /\ truthy (second_cell sh i) = false)
            \/ Py.contains "Index-linked" (label sh i) = true)).
  { intros i. unfold recorded, range.
    rewrite filter_In, in_seq, section_header_iff. split.
    - intros (Hr & Hlt & Hrest). split; [lia | assumption].
    - intros ((Hlt & Hn) & Hrest). split; [lia|]. split; assumption. }
  split; [|exact Hiff].
  intros Hin. apply Hiff in Hin. lia.
Qed.

(** X4. Every row recorded as a section header is written to the file as
    a data row: the two loops agree on these rows. *)
Theorem recorded_rows_are_written (ef od : option string) (w : world)
    (path : string) :
  fst (FormatGiltsCsv.format_gilts_csv ef od w) = Ok (Some path) ->
  exists f sh h n,
    (forall f', ef = Some f' -> f' = f)
    /\ first_sheet w f sh
    /\ fs (snd (FormatGiltsCsv.format_gilts_csv ef od w)) !! path
       = Some (File (Raw (csv_text QUOTE_MINIMAL
                            (map (trimmed sh) (written_indices sh h)))))
    /\ printed w (snd (FormatGiltsCsv.format_gilts_csv ef od w))
         [ConvertingFile f; ExcelHasSheets n;
          SheetDimensions (nrows sh) (ncols sh); FoundHeaderRow h;
          FoundSectionHeaders (map S (recorded sh h));
          SuccessfullyConverted path]
    /\ forall i, In i (recorded sh h) ->
                 In i (skipn 3 (written_indices sh h)).
Proof.
  intros H. apply format_gilts_csv_success in H.
  destruct H as (f & sh & h & Hef & Hsh & Hh & Hw & _ & Hfs & (n & Hpr) & _).
  exists f, sh, h, n. rewrite <- (written_rows_indices _ _ Hw).
  repeat (split; [assumption|]).
  intros i Hin. unfold recorded in Hin. apply filter_In in Hin.
  destruct Hin as (Hr & Hs). simpl. apply filter_In. split; [assumption|].
  apply section_header_iff in Hs. destruct Hs as (_ & Hg & Hc).
  assert (Hcols : 0 < ncols sh)
    by (destruct Hh as (_ & Hh & _); now apply header_names_need_columns in Hh).
  assert (Hne : Py.nonempty (label sh i) = true).
  { destruct Hc as [(Hne & _)|Hc].
    - destruct (label sh i); [contradiction | reflexivity].
    - now apply index_linked_is_no_group_label in Hc. }
  destruct (trimmed_head sh i Hcols) as (rest & Ht).
  { intros E. rewrite E in Hne. discriminate. }
  unfold kept. rewrite Ht. unfold Py.any. simpl. rewrite Hne. simpl.
  destruct (Py.mem (label sh i) group_labels) eqn:E; [|reflexivity].
  apply mem_In in E. contradiction.
Qed.

(** X5. A call touches no file but the CSV file: every other path holds
    the same file after the call as before, or none as before, whether
    the call returns a path, returns [None] or raises. *)
Theorem other_files_are_left_alone (f : string) (od : option string)
    (w : world) (p : string) (c : content) :
  p <> csv_path_of w f (directory w od) ->
  fs (snd (FormatGiltsCsv.format_gilts_csv (Some f) od w)) !! p
  = Some (File c)
  <-> fs w !! p = Some (File c).
Proof.
  intros Hp. rewrite format_gilts_csv_eq. unfold call_view.
  destruct (makedirs (directory w od) w) as [o w1] eqn:Em.
  pose proof (makedirs_files _ _ _ _ Em p c) as Hf.
  destruct o as [[]|e]; [|exact Hf].
  rewrite <- (csv_path_after_makedirs _ _ _ _ f (directory w od) Em) in Hp.
  destruct (existing_view_cases QUOTE_MINIMAL (map S) f (directory w od) w1)
    as [[_ ->]|(sh & h & _ & _ & _ & _ & ->)]; [exact Hf|].
  rewrite lookup_insert_ne by congruence. exact Hf.
Qed.

(** X6. The output directory is made before anything is looked at: after
    every call that returns, with a path or with [None] (the input file
    missing, say), the directory is there. *)
Theorem directory_is_there_after_a_return (ef od : option string)
    (w : world) (r : option string) :
  fst (FormatGiltsCsv.format_gilts_csv ef od w) = Ok r ->
  fs (snd (FormatGiltsCsv.format_gilts_csv ef od w)) !! directory w od
  = Some Dir.
Proof.
  rewrite format_gilts_csv_eq. unfold call_view.
  destruct (makedirs (directory w od) w) as [[[]|e] w1] eqn:Em;
    [|discriminate].
  pose proof (makedirs_makes _ _ _ Em) as Hd. intros _.
  assert (Hgo : forall f,
    fs (snd (existing_view QUOTE_MINIMAL (map S) f (directory w od) w1))
      !! directory w od = Some Dir).
  { intros f.
    destruct (existing_view_cases QUOTE_MINIMAL (map S) f (directory w od) w1)
      as [[_ ->]|(sh & h & _ & _ & _ & _ & ->)]; [exact Hd|].
    rewrite lookup_insert_ne; [exact Hd|].
    apply csv_path_is_not_the_directory. }
  destruct ef as [f|]; [apply Hgo|].
  destruct (chosen w1 None) as [f|]; [apply Hgo | exact Hd].
Qed.

(** ** When a conversion succeeds *)

Lemma cell_value_padded (sh : sheet) (i j : nat) :
  padded sh -> i < nrows sh -> j < ncols sh ->
  exists v, cell_value sh i j = Ok v.
Proof.
  intros Hp Hi Hj. unfold cell_value.
  destruct (nth_error (cells sh) i) as [r|] eqn:E.
  - rewrite (proj2 (index_Ok _ _ _) E). simpl.
    pose proof (padded_row_length sh i Hp Hi) as Hl.
    rewrite (row_at_nth_error _ _ _ E) in Hl.
    destruct (nth_error r j) as [v|] eqn:Ej.
    + exists v. now apply index_Ok.
    + apply nth_error_None in Ej. lia.
  - apply nth_error_None in E. unfold nrows in Hi. lia.
Qed.

Lemma row_values_out_of_range (sh : sheet) (i : nat) :
  nrows sh <= i -> 0 < ncols sh -> row_values sh i = Raise IndexError.
Proof.
  intros Hi Hc. unfold row_values, range. rewrite Nat.sub_0_r.
  destruct (ncols sh) as [|n]; [lia|]. simpl.
  unfold cell_value, index.
  destruct (nth_error (cells sh) i) eqn:E; [|reflexivity].
  assert (i < length (cells sh)) by (apply nth_error_Some; congruence).
  unfold nrows in Hi. lia.
Qed.

Lemma data_rows_padded (sh : sheet) (idxs : list nat) :
  padded sh -> (forall i, In i idxs -> i < nrows sh) ->
  snd (data_rows sh idxs) = Ok tt.
Proof.
  intros Hp. induction idxs as [|i rest IH]; intros Hr; [reflexivity|].
  simpl. rewrite row_values_padded by (assumption || apply Hr; now left).
  assert (IH' : snd (data_rows sh rest) = Ok tt)
    by (apply IH; intros j Hj; apply Hr; now right).
  destruct (Py.any (trimmed sh i)) eqn:A; simpl; [|assumption].
  destruct (trimmed sh i) as [|first rest']; [discriminate A|]. simpl.
  destruct (Py.mem first group_labels); assumption.
Qed.

Lemma written_rows_padded (sh : sheet) (h : nat) :
  padded sh -> 5 < nrows sh -> h < nrows sh ->
  snd (written_rows sh h) = Ok tt.
Proof.
  intros Hp H5 Hh. unfold written_rows.
  rewrite !row_values_padded by (assumption || lia). simpl.
  apply data_rows_padded; [assumption|].
  intros i Hi. unfold range in Hi. apply in_seq in Hi. lia.
Qed.

Lemma identify_section_headers_padded (sh : sheet) (h : nat)
    (idxs acc : list nat) :
  padded sh -> 2 <= ncols sh -> (forall i, In i idxs -> i < nrows sh) ->
  exists secs,
    FormatGiltsCsv.identify_section_headers sh h idxs acc = Ok secs.
Proof.
  intros Hp Hc. revert acc.
  induction idxs as [|i rest IH]; intros acc Hr; simpl; [now eexists|].
  assert (Hi : i < nrows sh) by (apply Hr; now left).
  assert (Hrest : forall j, In j rest -> j < nrows sh)
    by (intros j Hj; apply Hr; now right).
  destruct (cell_value_padded sh i 0 Hp Hi) as (v0 & ->); [lia|]. simpl.
  destruct (Py.mem _ group_labels); [now apply IH|].
  unfold FormatGiltsCsv.looks_like_section_header.
  destruct (cell_value_padded sh i 1 Hp Hi) as (v1 & ->); [lia|].
  destruct (Py.nonempty _); simpl;
    match goal with
    | |- context [if ?b then _ else _] => destruct b
    end; now apply IH.
Qed.

Lemma header_names_need_two_columns (sh : sheet) (i : nat) :
  has_header_names (trimmed sh i) -> 2 <= ncols sh.
Proof.
  intros (H1 & H2). pose proof (trimmed_le sh i) as Hl.
  destruct (trimmed sh i) as [|a [|b rest]]; simpl in *;
    [contradiction | | lia].
  destruct H1 as [H1|[]], H2 as [H2|[]]. subst a. discriminate H2.
Qed.

Lemma header_at_scan (sh : sheet) (h : nat) :
  padded sh -> header_at sh h ->
  header_scan sh (range 0 (Nat.min 15 (nrows sh))) = Ok (Some h).
Proof.
  intros Hp Hh.
  destruct (header_scan_padded sh (Nat.min 15 (nrows sh)) 0 Hp) as [r Hr];
    [lia|].
  assert (Hscan : header_scan sh (range 0 (Nat.min 15 (nrows sh))) = Ok r)
    by (unfold range; now rewrite Nat.sub_0_r).
  rewrite Hscan. destruct r as [h'|].
  - do 2 f_equal. apply (header_at_unique sh); [|assumption].
    now apply header_scan_header_at.
  - destruct Hh as (Hlt & Hn & _).
    exfalso. apply (header_scan_None _ _ _ Hr h); [lia | assumption].
Qed.

Lemma first_sheet_unique (w : world) (f : string) (sh sh' : sheet) :
  first_sheet w f sh -> first_sheet w f sh' -> sh = sh'.
Proof. intros (o & H) (o' & H'). congruence. Qed.

Lemma path_free_after_makedirs (dir p : string) (w w1 : world) :
  makedirs dir w = (Ok tt, w1) -> p <> dir ->
  fs w !! p <> Some Dir -> fs w1 !! p <> Some Dir.
Proof.
  unfold makedirs.
  destruct (fs w !! dir) as [[|?]|] eqn:E; [| |destruct (Py.nonempty dir)];
    try discriminate; intros [= <-] Hne Hp; [assumption|].
  simpl. now rewrite lookup_insert_ne by congruence.
Qed.

(** X7. For a workbook whose first sheet is padded as xlrd pads it, an
    output directory that can be made and the input given by name: the
    conversion returns a path exactly when one of the first 15 rows has
    both header names, the sheet has at least six rows and the path of
    the CSV file is not that of a directory; the path is then the one
    made of the directory and the date. *)
Theorem conversion_succeeds_exactly_when (f : string) (od : option string)
    (w : world) (sh : sheet) :
  fst (makedirs (directory w od) w) = Ok tt ->
  first_sheet w f sh ->
  padded sh ->
  ((exists p, fst (FormatGiltsCsv.format_gilts_csv (Some f) od w)
              = Ok (Some p))
   <-> (exists h, header_at sh h)
       /\ 5 < nrows sh
       /\ fs w !! csv_path_of w f (directory w od) <> Some Dir)
  /\ forall p,
       fst (FormatGiltsCsv.format_gilts_csv (Some f) od w) = Ok (Some p) ->
       p = csv_path_of w f (directory w od).
Proof.
  intros Hm Hsh Hp.
  assert (Hfwd : (exists h, header_at sh h) -> 5 < nrows sh ->
    fs w !! csv_path_of w f (directory w od) <> Some Dir ->
    fst (FormatGiltsCsv.format_gilts_csv (Some f) od w)
    = Ok (Some (csv_path_of w f (directory w od)))).
  { intros (h & Hh) H5 Hfree.
    rewrite format_gilts_csv_eq. unfold call_view.
    destruct (makedirs (directory w od) w) as [o w1] eqn:Em.
    simpl in Hm. subst o.
    rewrite <- (csv_path_after_makedirs _ _ _ _ f (directory w od) Em) in *.
    assert (H2 : 2 <= ncols sh)
      by (destruct Hh as (_ & Hn & _);
          now apply header_names_need_two_columns in Hn).
    destruct (identify_section_headers_padded sh h
                (range (h + 1) (nrows sh)) [] Hp H2) as (secs & Hi).
    { intros i Hi. unfold range in Hi. apply in_seq in Hi. lia. }
    destruct Hsh as (others & Hsh).
    apply (existing_view_forward QUOTE_MINIMAL (map S) f (directory w od)
             w1 sh h secs); try assumption.
    - exists others. now apply (makedirs_files _ _ _ _ Em).
    - now apply header_at_scan.
    - apply written_rows_padded; try assumption.
      destruct Hh as (Hlt & _). lia.
    - apply (path_free_after_makedirs _ _ _ _ Em); [|assumption].
      apply csv_path_is_not_the_directory. }
  split; [|intros p H; apply format_gilts_csv_success in H;
            destruct H as (f' & ? & ? & Hef & _ & _ & _ & Hpath & _);
            now rewrite (Hef f eq_refl)].
  split.
  - intros (p & H).
    pose proof H as H'. apply format_gilts_csv_success in H'.
    destruct H' as (f' & sh' & h & Hef & Hsh' & Hh & Hw & Hpath & _).
    rewrite <- (Hef f eq_refl) in *.
    rewrite <- (first_sheet_unique _ _ _ _ Hsh Hsh') in *.
    assert (H5 : 5 < nrows sh).
    { destruct (written_rows_Ok _ _ Hw) as (_ & H5).
      apply row_values_Ok in H5. destruct H5 as (_ & _ & [H0|[H5 _]]);
        [|assumption].
      destruct Hh as (_ & Hn & _). apply header_names_need_columns in Hn.
      lia. }
    assert (Hfree : fs w !! csv_path_of w f (directory w od) <> Some Dir).
    { intros Hd. rewrite format_gilts_csv_eq in H. unfold call_view in H.
      destruct (makedirs (directory w od) w) as [o w1] eqn:Em.
      simpl in Hm. subst o.
      apply (makedirs_dirs _ _ _ _ Em) in Hd.
      rewrite <- (csv_path_after_makedirs _ _ _ _ f (directory w od) Em)
        in Hd.
      destruct (existing_view_cases QUOTE_MINIMAL (map S) f
                  (directory w od) w1)
        as [[Hr _]|(? & ? & _ & _ & Hfree & _)]; [congruence|].
      contradiction. }
    split; [now exists h|]. split; assumption.
  - intros (Hh & H5 & Hfree). eexists. now apply Hfwd.
Qed.

Lemma existing_view_late_failure (q : quoting) (shown : list nat -> list nat)
    (f dir : string) (w : world) (sh : sheet) (h : nat) (secs : list nat)
    (e : exn) :
  first_sheet w f sh ->
  header_scan sh (range 0 (Nat.min 15 (nrows sh))) = Ok (Some h) ->
  FormatGiltsCsv.identify_section_headers sh h
    (range (h + 1) (nrows sh)) [] = Ok secs ->
  snd (written_rows sh h) = Raise e ->
  fs w !! csv_path_of w f dir <> Some Dir ->
  existing_view q shown f dir w
  = (Ok None,
     say ([ConvertingFile f; ExcelHasSheets (nsheets
             (Workbook (sh :: match fs w !! f with
                              | Some (File (Xls wb)) => tl (sheets wb)
                              | _ => []
                              end)));
           SheetDimensions (nrows sh) (ncols sh); FoundHeaderRow h;
           FoundSectionHeaders (shown secs)] ++ failed e)
       (holding (csv_path_of w f dir)
          (csv_text q (fst (written_rows sh h))) w)).
Proof.
  intros (others & Hsh) Hh Hi Hw Hd.
  unfold existing_view, convert_view. cbn [fs say set_console]. rewrite Hsh.
  cbn [sheets]. rewrite !Hh, !Hi, !Hw.
  change (csv_path_of (say [ConvertingFile f] w) f dir)
    with (csv_path_of w f dir).
  destruct (fs w !! csv_path_of w f dir) as [[|?]|];
    [contradiction| |]; same_world.
Qed.

(** X8. A sheet with a header row and at most five rows cannot give its
    row 5: the file is opened, the title row is written, reading row 5
    raises [IndexError], and the call returns [None] with the one record
    left in the file. *)
Theorem too_few_rows_leave_the_title_record (f : string)
    (od : option string) (w : world) (sh : sheet) (h : nat) :
  fst (makedirs (directory w od) w) = Ok tt ->
  first_sheet w f sh ->
  padded sh ->
  header_at sh h ->
  nrows sh <= 5 ->
  fs w !! csv_path_of w f (directory w od) <> Some Dir ->
  fst (FormatGiltsCsv.format_gilts_csv (Some f) od w) = Ok None
  /\ fs (snd (FormatGiltsCsv.format_gilts_csv (Some f) od w))
       !! csv_path_of w f (directory w od)
     = Some (File (Raw (csv_record QUOTE_MINIMAL (trimmed sh 0))))
  /\ exists n secs,
       printed w (snd (FormatGiltsCsv.format_gilts_csv (Some f) od w))
         [ConvertingFile f; ExcelHasSheets n;
          SheetDimensions (nrows sh) (ncols sh); FoundHeaderRow h;
          FoundSectionHeaders secs;
          ErrorConverting IndexError; Traceback IndexError].
Proof.
  intros Hm Hsh Hp Hh H5 Hfree.
  rewrite format_gilts_csv_eq. unfold call_view.
  destruct (makedirs (directory w od) w) as [o w1] eqn:Em.
  simpl in Hm. subst o.
  destruct (makedirs_keeps _ _ _ _ Em) as (_ & _ & _ & Hc).
  rewrite <- (csv_path_after_makedirs _ _ _ _ f (directory w od) Em) in *.
  assert (H2 : 2 <= ncols sh)
    by (destruct Hh as (_ & Hn & _);
        now apply header_names_need_two_columns in Hn).
  destruct (identify_section_headers_padded sh h
              (range (h + 1) (nrows sh)) [] Hp H2) as (secs & Hi).
  { intros i Hi. unfold range in Hi. apply in_seq in Hi. lia. }
  assert (Hw : written_rows sh h = ([trimmed sh 0], Raise IndexError)).
  { unfold written_rows.
    rewrite row_values_padded by (assumption || destruct Hh; lia).
    now rewrite row_values_out_of_range by lia. }
  destruct Hsh as (others & Hsh).
  rewrite (existing_view_late_failure QUOTE_MINIMAL (map S) f
             (directory w od) w1 sh h secs IndexError).
  - rewrite Hw. simpl. rewrite lookup_insert_eq, append_empty_r.
    split; [reflexivity|]. split; [reflexivity|].
    eexists. eexists. unfold printed. simpl. rewrite Hc. reflexivity.
  - exists others. now apply (makedirs_files _ _ _ _ Em).
  - now apply header_at_scan.
  - assumption.
  - now rewrite Hw.
  - apply (path_free_after_makedirs _ _ _ _ Em); [|assumption].
    apply csv_path_is_not_the_directory.
Qed.

(** ** What the fields and the path look like *)

Lemma lstrip_head (s : string) (a : ascii) (r : string) :
  Py.lstrip s = String a r -> Py.isspace a = false.
Proof.
  induction s as [|c s IH]; simpl; [discriminate|].
  destruct (Py.isspace c) eqn:E; [assumption|]. now intros [= <- _].
Qed.

Lemma rstrip_head (a : ascii) (r : string) :
  Py.isspace a = false -> exists r', Py.rstrip (String a r) = String a r'.
Proof.
  intros Ha. simpl. destruct (Py.rstrip r); [rewrite Ha|]; now eexists.
Qed.

Lemma rstrip_last (s : string) (a : ascii) (r : string) :
  Py.rstrip s = String a r ->
  exists z, last_char (Py.rstrip s) = Some z /\ Py.isspace z = false.
Proof.
  revert a r. induction s as [|c s IH]; simpl; [discriminate|].
  intros a r. destruct (Py.rstrip s) as [|b t] eqn:E.
  - destruct (Py.isspace c) eqn:Ec; [discriminate|].
    intros _. now exists c.
  - intros _. destruct (IH b t eq_refl) as (z & Hz & Hs).
    exists z. split; [|assumption]. simpl in *. exact Hz.
Qed.

Lemma strip_is_trimmed (s : string) : trimmed_string (Py.strip s).
Proof.
  unfold Py.strip. destruct (Py.lstrip s) as [|a r] eqn:E; [exact I|].
  apply lstrip_head in E.
  destruct (rstrip_head a r E) as (r' & Hr).
  unfold trimmed_string. rewrite Hr. split; [assumption|].
  rewrite <- Hr. now apply (rstrip_last _ a r').
Qed.

Lemma trimmed_fields (sh : sheet) (i : nat) :
  Forall trimmed_string (trimmed sh i).
Proof.
  unfold trimmed. apply List.Forall_forall. intros s Hs.
  apply in_map_iff in Hs. destruct Hs as (v & <- & _).
  apply strip_is_trimmed.
Qed.

(** X9. After a successful conversion no field of the file has white
    space at its start or at its end: every field of every record is a
    cell value as [str(v).strip()] leaves it. *)
Theorem fields_have_no_space_at_the_ends (ef od : option string)
    (w : world) (path : string) :
  fst (FormatGiltsCsv.format_gilts_csv ef od w) = Ok (Some path) ->
  exists rows,
    fs (snd (FormatGiltsCsv.format_gilts_csv ef od w)) !! path
    = Some (File (Raw (csv_text QUOTE_MINIMAL rows)))
    /\ Forall (Forall trimmed_string) rows.
Proof.
  intros H. apply format_gilts_csv_success in H.
  destruct H as (f & sh & h & _ & _ & _ & Hw & _ & Hfs & _).
  exists (fst (written_rows sh h)). split; [assumption|].
  rewrite (written_rows_indices _ _ Hw).
  apply List.Forall_forall. intros r Hr.
  apply in_map_iff in Hr. destruct Hr as (i & <- & _).
  apply trimmed_fields.
Qed.

Lemma digit_char_is_digit (n : nat) : is_digit (digit_char n) = true.
Proof.
  unfold digit_char.
  assert (H : n mod 10 < 10) by (apply Nat.mod_upper_bound; lia).
  remember (n mod 10) as m eqn:E. clear E.
  do 10 (destruct m as [|m]; [reflexivity|]). lia.
Qed.

Lemma digit_value_digit_char (n : nat) :
  digit_value (digit_char n) = n mod 10.
Proof.
  unfold digit_char.
  assert (H : n mod 10 < 10) by (apply Nat.mod_upper_bound; lia).
  remember (n mod 10) as m eqn:E. clear E.
  do 10 (destruct m as [|m]; [reflexivity|]). lia.
Qed.



(** ** [DownloadAndFormatGilts.format_gilts_csv] as an imported function *)

(** X11. When [src/download_and_format_gilts.py] is imported, not run, the
    name [glob] is not bound: a call without an input file makes the
    output directory and then raises [NameError], which no [try]
    statement catches; it neither returns [None] nor prints anything. *)
Theorem imported_without_a_file_raises (od : option string) (w : world) :
  fst (makedirs (directory w od) w) = Ok tt ->
  DownloadAndFormatGilts.format_gilts_csv false None od w
  = (Raise NameError, snd (makedirs (directory w od) w))
  /\ console (snd (makedirs (directory w od) w)) = console w
  /\ fs (snd (makedirs (directory w od) w)) !! directory w od = Some Dir.
Proof.
  intros Hm. rewrite format_gilts_csv_all_eq. unfold call_view.
  destruct (makedirs (directory w od) w) as [o w1] eqn:Em.
  simpl in Hm. subst o. simpl.
  split; [reflexivity|]. split.
  - now destruct (makedirs_keeps _ _ _ _ Em) as (_ & _ & _ & Hc).
  - now apply (makedirs_makes _ _ _ Em).
Qed.

(** ** The script *)

Lemma csv_path_is_not_empty (w : world) (f dir : string) :
  Py.nonempty (csv_path_of w f dir) = true.
Proof.
  pose proof (join_longer dir
    ("gilts_in_issue_" +:+ date_of w f +:+ ".csv") eq_refl) as H.
  fold (csv_path_of w f dir) in H.
  destruct (csv_path_of w f dir); [|reflexivity].
  simpl in H. assert (String.length dir < 0); [|lia].
  apply H. discriminate.
Qed.

(** X12. The script says that the CSV file was created exactly when the
    call returned a path (a path is never the empty string, which the
    test [if csv_path:] would take for a failure), and the file is then
    in [csv_exports] beside the script: the arguments after the first are
    not read. *)
Theorem script_reports_what_the_call_returned (argv : list string)
    (w : world) (p : string) :
  (fst (script argv w) = Ok (CsvFileCreatedAt p)
   <-> fst (FormatGiltsCsv.format_gilts_csv
              (if 1 <? length argv then Some (nth 1 argv EmptyString)
               else None)
              None w) = Ok (Some p))
  /\ (fst (script argv w) = Ok (CsvFileCreatedAt p) ->
      exists f, p = csv_path_of w f (join (here w) "csv_exports")).
Proof.
  assert (Hpath : forall ef,
    fst (FormatGiltsCsv.format_gilts_csv ef None w) = Ok (Some p) ->
    exists f, p = csv_path_of w f (join (here w) "csv_exports")).
  { intros ef H. apply format_gilts_csv_success in H.
    destruct H as (f & sh & h & _ & _ & _ & _ & Hp & _). now exists f. }
  assert (Hiff : fst (script argv w) = Ok (CsvFileCreatedAt p)
   <-> fst (FormatGiltsCsv.format_gilts_csv
              (if 1 <? length argv then Some (nth 1 argv EmptyString)
               else None)
              None w) = Ok (Some p)).
  { unfold script, bind.
    destruct (FormatGiltsCsv.format_gilts_csv _ None w) as [[[q|]|e] w']
      eqn:E; simpl; try (split; discriminate).
    assert (Hq : Py.nonempty q = true).
    { assert (E' : fst (FormatGiltsCsv.format_gilts_csv
                          (if 1 <? length argv
                           then Some (nth 1 argv EmptyString) else None)
                          None w) = Ok (Some q)) by now rewrite E.
      apply format_gilts_csv_success in E'.
      destruct E' as (f & sh & h & _ & _ & _ & _ & -> & _).
      apply csv_path_is_not_empty. }
    rewrite Hq. simpl. split; congruence. }
  split; [exact Hiff|]. intros H. apply Hiff in H. now apply Hpath in H.
Qed.

(** ** The latest download *)





(** ** From the name of a download to the name of the CSV file *)

Lemma split_not_nil (c : ascii) (s : string) : Py.split c s <> [].
Proof.
  destruct s as [|a s]; simpl; [discriminate|].
  destruct (Ascii.eqb a c); [discriminate|].
  destruct (Py.split c s); discriminate.
Qed.

Lemma split_app_sep (c : ascii) (a b : string) :
  Py.split c (a +:+ String c b) = Py.split c a ++ Py.split c b.
Proof.
  induction a as [|x a IH].
  - change (Py.split c (String c b) = [EmptyString] ++ Py.split c b).
    simpl. now rewrite Ascii.eqb_refl.
  - change (Py.split c (String x (a +:+ String c b))
            = Py.split c (String x a) ++ Py.split c b).
    simpl. rewrite IH. destruct (Ascii.eqb x c); [reflexivity|].
    pose proof (split_not_nil c a) as Hn.
    destruct (Py.split c a) as [|u us]; [contradiction | reflexivity].
Qed.

Lemma split_no_sep (c : ascii) (s : string) :
  has_char c s = false -> Py.split c s = [s].
Proof.
  induction s as [|a s IH]; simpl; [reflexivity|].
  rewrite orb_false_iff. intros (Ha & Hs).
  rewrite Ha, (IH Hs). reflexivity.
Qed.

Lemma has_char_app (c : ascii) (a b : string) :
  has_char c (a +:+ b) = has_char c a || has_char c b.
Proof.
  induction a as [|x a IH]; [reflexivity|].
  change (Ascii.eqb x c || has_char c (a +:+ b)
          = Ascii.eqb x c || has_char c a || has_char c b).
  now rewrite IH, orb_assoc.
Qed.

Lemma last_split_app_sep (c : ascii) (a b d : string) :
  List.last (Py.split c (a +:+ String c b)) d = List.last (Py.split c b) d.
Proof.
  rewrite split_app_sep.
  pose proof (split_not_nil c b) as Hn.
  destruct (Py.split c b) as [|u us] using rev_ind; [contradiction|].
  now rewrite app_assoc, !last_last.
Qed.

Lemma ends_with_app (c : ascii) (a : string) :
  Py.ends_with c a = true -> exists a', a = a' +:+ String c EmptyString.
Proof.
  induction a as [|x a IH]; simpl; [discriminate|].
  destruct a as [|y a].
  - intros H. apply Ascii.eqb_eq in H. subst x. now exists EmptyString.
  - intros H. destruct (IH H) as (a' & ->). now exists (String x a').
Qed.

Lemma basename_join (a b : string) :
  has_char slash b = false -> basename (join a b) = b.
Proof.
  intros Hb. unfold basename, join.
  assert (Hs : Py.starts_with slash b = false).
  { destruct b as [|x b]; [reflexivity|]. simpl in *.
    now apply orb_false_iff in Hb. }
  rewrite Hs.
  destruct (negb (Py.nonempty a) || Py.ends_with slash a) eqn:E.
  - apply orb_true_iff in E. destruct E as [E|E].
    + destruct a; [|discriminate]. rewrite append_empty_l.
      now rewrite (split_no_sep _ _ Hb).
    + destruct (ends_with_app _ _ E) as (a' & ->).
      rewrite append_assoc.
      change (String slash EmptyString +:+ b) with (String slash b).
      rewrite last_split_app_sep. now rewrite (split_no_sep _ _ Hb).
  - rewrite last_split_app_sep. now rewrite (split_no_sep _ _ Hb).
Qed.

Lemma date_str_of_name (dir stamp ext : string) :
  has_char slash stamp = false ->
  has_char "_"%char stamp = false ->
  has_char "."%char stamp = false ->
  has_char slash ext = false ->
  has_char "_"%char ext = false ->
  date_str (join dir ("gilts_in_issue_" +:+ stamp +:+ String "."%char ext))
  = stamp.
Proof.
  intros H1 H2 H3 H4 H5. unfold date_str.
  rewrite basename_join.
  2:{ change ("gilts_in_issue_" +:+ stamp +:+ String "."%char ext)
        with ("gilts_in_issue_"
              +:+ (stamp +:+ String "."%char ext)).
      rewrite !has_char_app. simpl has_char at 1. rewrite H1.
      simpl. exact H4. }
  change ("gilts_in_issue_" +:+ stamp +:+ String "."%char ext)
    with ("gilts" +:+ String "_"%char
            ("in" +:+ String "_"%char
               ("issue" +:+ String "_"%char
                  (stamp +:+ String "."%char ext)))).
  rewrite !last_split_app_sep.
  rewrite (split_no_sep "_"%char).
  2:{ rewrite has_char_app, H2. simpl. exact H5. }
  simpl List.last. rewrite split_app_sep, (split_no_sep _ _ H3).
  reflexivity.
Qed.

Lemma digit_char_eqb (n : nat) (c : ascii) :
  is_digit c = false -> Ascii.eqb (digit_char n) c = false.
Proof.
  intros Hc. destruct (Ascii.eqb (digit_char n) c) eqn:E; [|reflexivity].
  apply Ascii.eqb_eq in E. subst c.
  now rewrite digit_char_is_digit in Hc.
Qed.

Lemma has_char_two_digits (c : ascii) (n : nat) :
  is_digit c = false -> has_char c (two_digits n) = false.
Proof.
  intros Hc. unfold two_digits. cbn [has_char].
  now rewrite !digit_char_eqb.
Qed.

Lemma has_char_four_digits (c : ascii) (n : nat) :
  is_digit c = false -> has_char c (four_digits n) = false.
Proof.
  intros Hc. unfold four_digits. cbn [has_char].
  now rewrite !digit_char_eqb.
Qed.

(** The date of a download as its name has it. *)
Lemma file_date_form (d : date) :
  replace slash "-"%char (strftime_dmy d)
  = two_digits (day d)
    +:+ String "-"%char
          (two_digits (month d) +:+ String "-"%char (four_digits (year d))).
Proof.
  unfold strftime_dmy. cbn [replace].
  rewrite !digit_char_eqb by reflexivity.
  rewrite Ascii.eqb_refl. reflexivity.
Qed.

Lemma has_char_file_date (c : ascii) (d : date) :
  is_digit c = false -> Ascii.eqb "-"%char c = false ->
  has_char c (replace slash "-"%char (strftime_dmy d)) = false.
Proof.
  intros Hc Hd. rewrite file_date_form.
  change (two_digits (day d)
          +:+ String "-"%char
                (two_digits (month d)
                 +:+ String "-"%char (four_digits (year d))))
    with (two_digits (day d)
          +:+ (String "-"%char EmptyString
               +:+ (two_digits (month d)
                    +:+ (String "-"%char EmptyString
                         +:+ four_digits (year d))))).
  rewrite !has_char_app, !has_char_two_digits, has_char_four_digits
    by assumption.
  cbn [has_char]. now rewrite Hd.
Qed.

Lemma two_digits_value (n : nat) :
  n < 100 -> 10 * ((n / 10) mod 10) + n mod 10 = n.
Proof.
  intros Hn. rewrite (Nat.mod_small (n / 10)).
  - symmetry. apply Nat.div_mod_eq.
  - apply Nat.Div0.div_lt_upper_bound. lia.
Qed.

Lemma four_digits_value (n : nat) :
  n < 100 * 100 ->
  1000 * ((n / 1000) mod 10) + 100 * ((n / 100) mod 10)
  + 10 * ((n / 10) mod 10) + n mod 10 = n.
Proof.
  intros Hn.
  pose proof (Nat.div_mod_eq n 10) as H1.
  pose proof (Nat.div_mod_eq (n / 10) 10) as H2.
  pose proof (Nat.div_mod_eq (n / 10 / 10) 10) as H3.
  assert (E2 : n / 100 = n / 10 / 10)
    by (now rewrite Nat.Div0.div_div).
  assert (E3 : n / 1000 = n / 10 / 10 / 10)
    by (now rewrite !Nat.Div0.div_div).
  rewrite E2, E3.
  assert (H4 : n / 10 / 10 / 10 < 10).
  { rewrite !Nat.Div0.div_div. apply Nat.Div0.div_lt_upper_bound. lia. }
  rewrite (Nat.mod_small _ _ H4). lia.
Qed.

Lemma days_in_month_le (y m : nat) : days_in_month y m <= 31.
Proof.
  unfold days_in_month.
  do 12 (destruct m as [|m]; [try destruct (is_leap y); lia|]).
  lia.
Qed.

Lemma directive_d_two_digits (n : nat) :
  1 <= n <= 31 -> directive_d (two_digits n) = Some n.
Proof.
  intros Hn. unfold directive_d, two_digits.
  rewrite digit_char_eqb by reflexivity.
  rewrite !digit_char_is_digit, !digit_value_digit_char.
  rewrite two_digits_value by lia.
  cbv beta iota zeta. cbn [andb].
  destruct (Nat.leb_spec 1 n); [|lia].
  destruct (Nat.leb_spec n 31); [reflexivity | lia].
Qed.

Lemma directive_m_two_digits (n : nat) :
  1 <= n <= 12 -> directive_m (two_digits n) = Some n.
Proof.
  intros Hn. unfold directive_m, two_digits.
  rewrite !digit_char_is_digit, !digit_value_digit_char.
  rewrite two_digits_value by lia.
  cbv beta iota zeta. cbn [andb].
  destruct (Nat.leb_spec 1 n); [|lia].
  destruct (Nat.leb_spec n 12); [reflexivity | lia].
Qed.

Lemma directive_Y_four_digits (n : nat) :
  n < 100 * 100 -> directive_Y (four_digits n) = Some n.
Proof.
  intros Hn. unfold directive_Y, four_digits.
  rewrite !digit_char_is_digit, !digit_value_digit_char.
  rewrite four_digits_value by assumption.
  reflexivity.
Qed.

Lemma strptime_file_date (d : date) :
  calendar_date d ->
  strptime (replace slash "-"%char (strftime_dmy d)) = Ok d.
Proof.
  intros (Hy & Hm & Hd). rewrite file_date_form. unfold strptime.
  rewrite (split_app_sep "-"%char (two_digits (day d))).
  rewrite (split_app_sep "-"%char (two_digits (month d))).
  rewrite (split_no_sep "-"%char (two_digits (day d)))
    by (apply has_char_two_digits; reflexivity).
  rewrite (split_no_sep "-"%char (two_digits (month d)))
    by (apply has_char_two_digits; reflexivity).
  rewrite (split_no_sep "-"%char (four_digits (year d)))
    by (apply has_char_four_digits; reflexivity).
  cbn [app].
  pose proof (days_in_month_le (year d) (month d)) as Hle.
  rewrite directive_d_two_digits by lia.
  rewrite directive_m_two_digits by lia.
  rewrite directive_Y_four_digits by lia.
  destruct (Nat.leb_spec 1 (year d)); [|lia].
  destruct (Nat.leb_spec (day d) (days_in_month (year d) (month d)));
    [|lia].
  cbn [andb]. now destruct d.
Qed.

(** X14. The name under which [download_gilts_data] saves the download
    for a date carries that date back to [format_gilts_csv]: for a date
    [d] of the calendar, given as [d.strftime('%d/%m/%Y')], the date read
    from the name of the download is [d], so that the conversion of the
    download, whenever it is run, returns the path of
    [gilts_in_issue_YYYYMMDD.csv] for this date. *)
Theorem download_name_carries_the_date (script_dir : string) (d : date)
    (od : option string) (w : world) (p : string) :
  calendar_date d ->
  strptime (date_str (download_path script_dir (strftime_dmy d))) = Ok d
  /\ (fst (DownloadAndFormatGilts.format_gilts_csv false
             (Some (download_path script_dir (strftime_dmy d))) od w)
      = Ok (Some p) ->
      p = join (directory w od)
            ("gilts_in_issue_" +:+ strftime d +:+ ".csv")).
Proof.
  intros Hd.
  assert (Hparse :
    strptime (date_str (download_path script_dir (strftime_dmy d))) = Ok d).
  { unfold download_path.
    change ("gilts_in_issue_"
            +:+ replace slash "-"%char (strftime_dmy d) +:+ ".xls")
      with ("gilts_in_issue_"
            +:+ replace slash "-"%char (strftime_dmy d)
            +:+ String "."%char "xls").
    rewrite date_str_of_name;
      try (apply has_char_file_date; reflexivity); try reflexivity.
    now apply strptime_file_date. }
  split; [exact Hparse|].
  rewrite format_gilts_csv_all_eq. intros H.
  apply call_view_success in H.
  destruct H as (f & sh & h & w1 & n & _ & Hef & _ & _ & _ & _ & Hp & _).
  rewrite <- (Hef _ eq_refl) in Hp. rewrite Hp.
  unfold csv_path_of, date_of. now rewrite Hparse.
Qed.

(** ** The search finds what the download saved *)









(** ** The further properties at the sample inputs *)

Lemma gilts_sheet_header_at : header_at gilts_sheet 8.
Proof.
  split; [vm_compute; lia|]. split; [split; vm_compute; tauto|].
  intros k Hk [H _].
  do 8 (destruct k as [|k];
        [vm_compute in H; repeat destruct H as [H|H]; discriminate H
        || contradiction|]).
  lia.
Qed.

Lemma short_sheet_header_at : header_at short_sheet 0.
Proof.
  split; [vm_compute; lia|]. split; [split; vm_compute; tauto|].
  intros k Hk. lia.
Qed.

Lemma short_sheet_padded : padded short_sheet.
Proof. repeat constructor. Qed.


(** The data rows of the conversion of [gilts_sheet]. *)
Lemma data_rows_are_the_rows_kept_witness :
  exists sh h indices,
    first_sheet (world_with gilts_sheet) gilts_xls sh
    /\ header_at sh h
    /\ fs (snd (FormatGiltsCsv.format_gilts_csv (Some gilts_xls) (Some "out")
                  (world_with gilts_sheet))) !! gilts_csv
       = Some (File (Raw (csv_text QUOTE_MINIMAL
            (trimmed sh 0 :: trimmed sh 5 :: trimmed sh h
             :: map (trimmed sh) indices))))
    /\ forall i, In i indices <-> data_row sh h i.
Proof.
  destruct (data_rows_are_the_rows_kept (Some gilts_xls) (Some "out")
              (world_with gilts_sheet) gilts_csv eq_refl)
    as (f & sh & h & indices & Hf & Hsh & Hh & Hfs & _ & Hrows).
  rewrite <- (Hf gilts_xls eq_refl) in Hsh.
  exists sh, h, indices.
  split; [exact Hsh | split; [exact Hh | split; [exact Hfs | exact Hrows]]].
Defined.

(** The section headers printed for [gilts_sheet]. *)
Lemma section_headers_printed_witness :
  exists sh h n secs,
    first_sheet (world_with gilts_sheet) gilts_xls sh
    /\ printed (world_with gilts_sheet)
         (snd (FormatGiltsCsv.format_gilts_csv (Some gilts_xls) (Some "out")
                 (world_with gilts_sheet)))
         [ConvertingFile gilts_xls; ExcelHasSheets n;
          SheetDimensions (nrows sh) (ncols sh); FoundHeaderRow h;
          FoundSectionHeaders (map S secs);
          SuccessfullyConverted gilts_csv]
    /\ ~ In (h + 1) secs.
Proof.
  destruct (section_headers_printed (Some gilts_xls) (Some "out")
              (world_with gilts_sheet) gilts_csv eq_refl)
    as (f & sh & h & n & secs & Hf & Hsh & _ & Hpr & Hnot & _).
  rewrite <- (Hf gilts_xls eq_refl) in Hsh, Hpr.
  exists sh, h, n, secs.
  split; [exact Hsh | split; [exact Hpr | exact Hnot]].
Defined.

(** The rows recorded for [gilts_sheet] are written. *)
Lemma recorded_rows_are_written_witness :
  exists sh h,
    first_sheet (world_with gilts_sheet) gilts_xls sh
    /\ forall i, In i (recorded sh h) ->
                 In i (skipn 3 (written_indices sh h)).
Proof.
  destruct (recorded_rows_are_written (Some gilts_xls) (Some "out")
              (world_with gilts_sheet) gilts_csv eq_refl)
    as (f & sh & h & n & Hf & Hsh & _ & _ & Hrows).
  rewrite <- (Hf gilts_xls eq_refl) in Hsh.
  exists sh, h. split; [exact Hsh | exact Hrows].
Defined.

(** The conversion of [gilts_sheet] leaves the spreadsheet as it was. *)
Lemma other_files_are_left_alone_witness :
  fs (snd (FormatGiltsCsv.format_gilts_csv (Some gilts_xls) (Some "out")
             (world_with gilts_sheet))) !! gilts_xls
  = Some (File (Xls (Workbook [gilts_sheet])))
  <-> fs (world_with gilts_sheet) !! gilts_xls
      = Some (File (Xls (Workbook [gilts_sheet]))).
Proof.
  apply (other_files_are_left_alone gilts_xls (Some "out")
           (world_with gilts_sheet) gilts_xls).
  intros E. vm_compute in E. discriminate E.
Defined.

(** The file is not there, the directory is. *)
Lemma directory_is_there_after_a_return_witness :
  fst (FormatGiltsCsv.format_gilts_csv (Some "missing.xls") (Some "out")
         (world_with gilts_sheet)) = Ok None
  /\ fs (world_with gilts_sheet) !! "out" = None
  /\ fs (snd (FormatGiltsCsv.format_gilts_csv (Some "missing.xls")
                (Some "out") (world_with gilts_sheet))) !! "out"
     = Some Dir.
Proof.
  split; [reflexivity|]. split; [reflexivity|].
  apply (directory_is_there_after_a_return (Some "missing.xls") (Some "out")
           (world_with gilts_sheet) None).
  reflexivity.
Defined.

(** [gilts_sheet] has what a conversion needs; [short_sheet] has not. *)
Lemma conversion_succeeds_exactly_when_witness :
  (exists p,
     fst (FormatGiltsCsv.format_gilts_csv (Some gilts_xls) (Some "out")
            (world_with gilts_sheet)) = Ok (Some p))
  /\ ~ (exists p,
          fst (FormatGiltsCsv.format_gilts_csv (Some gilts_xls) (Some "out")
                 (world_with short_sheet)) = Ok (Some p)).
Proof.
  split.
  - apply (proj1 (conversion_succeeds_exactly_when gilts_xls (Some "out")
                    (world_with gilts_sheet) gilts_sheet eq_refl
                    (world_with_first_sheet gilts_sheet) gilts_sheet_padded)).
    split; [exists 8; exact gilts_sheet_header_at|].
    split; [vm_compute; lia|]. vm_compute. discriminate.
  - intros H.
    apply (proj1 (conversion_succeeds_exactly_when gilts_xls (Some "out")
                    (world_with short_sheet) short_sheet eq_refl
                    (world_with_first_sheet short_sheet) short_sheet_padded))
      in H.
    destruct H as (_ & H5 & _). vm_compute in H5. lia.
Defined.

(** [short_sheet] has two rows: the title record is all that is
    written. *)
Lemma too_few_rows_leave_the_title_record_witness :
  fst (FormatGiltsCsv.format_gilts_csv (Some gilts_xls) (Some "out")
         (world_with short_sheet)) = Ok None
  /\ fs (snd (FormatGiltsCsv.format_gilts_csv (Some gilts_xls) (Some "out")
                (world_with short_sheet)))
       !! csv_path_of (world_with short_sheet) gilts_xls "out"
     = Some (File (Raw (csv_record QUOTE_MINIMAL (trimmed short_sheet 0)))).
Proof.
  destruct (too_few_rows_leave_the_title_record gilts_xls (Some "out")
              (world_with short_sheet) short_sheet 0 eq_refl
              (world_with_first_sheet short_sheet) short_sheet_padded
              short_sheet_header_at)
    as (H1 & H2 & _).
  - vm_compute. lia.
  - vm_compute. discriminate.
  - split; [exact H1 | exact H2].
Defined.

(** The fields of the conversion of [gilts_sheet]: the header name
    [" Gilt Name "] has lost its spaces. *)
Lemma fields_have_no_space_at_the_ends_witness :
  exists rows,
    fs (snd (FormatGiltsCsv.format_gilts_csv (Some gilts_xls) (Some "out")
               (world_with gilts_sheet))) !! gilts_csv
    = Some (File (Raw (csv_text QUOTE_MINIMAL rows)))
    /\ Forall (Forall trimmed_string) rows.
Proof.
  apply (fields_have_no_space_at_the_ends (Some gilts_xls) (Some "out")
           (world_with gilts_sheet) gilts_csv).
  reflexivity.
Defined.


(** The imported function without a file, in the world of
    [gilts_sheet]. *)
Lemma imported_without_a_file_raises_witness :
  fst (DownloadAndFormatGilts.format_gilts_csv false None (Some "out")
         (world_with gilts_sheet)) = Raise NameError.
Proof.
  destruct (imported_without_a_file_raises (Some "out")
              (world_with gilts_sheet) eq_refl) as (H & _).
  now rewrite H.
Defined.


(** The download for 31 December 2024. *)
Lemma download_name_carries_the_date_witness :
  download_path "/app" (strftime_dmy (Date 2024 12 31))
  = "/app/downloads/gilts_in_issue_31-12-2024.xls"
  /\ strptime (date_str (download_path "/app"
                           (strftime_dmy (Date 2024 12 31))))
     = Ok (Date 2024 12 31).
Proof.
  split; [vm_compute; reflexivity|].
  apply (download_name_carries_the_date "/app" (Date 2024 12 31) None
           downloads_world EmptyString).
  unfold calendar_date. cbn [year month day].
  repeat split; try lia; vm_compute; lia.
Defined.
